(** * project1: expense-tracking chat bot (src/project1/main.py)

    A shallow embedding of the record store ([BaseHandler]) and of the
    message handlers ([FinanceBot]), and the properties of them that the
    specification states.

    Python values are modelled as follows.
    - [str]: the list of its Unicode code points.
    - [float]: an IEEE-754 binary64 value, [spec_float] with precision 53
      and maximal exponent 1024; NaN carries no sign or payload.
    - [dict] keyed by strings: [gmap str _]; a [dict] with fixed keys: a
      record.
    - a method: a function from the state of the bot to an outcome (a
      value or a raised exception), the state it leaves and the effects it
      performed, in order.

    Left out: the log records, the wording of the messages (a message is
    its template and the values formatted into it), and failures of the
    file system and of the network. *)

From Stdlib Require Import ZArith NArith List String Ascii Lia SpecFloat.
From Stdlib Require Import DecimalString DecimalPos DecimalZ.
From stdpp Require Import gmap list.

Local Open Scope N_scope.

(** ** Strings *)

Abbreviation str := (list N).

(** Code points of a UTF-8 encoded literal; [k] continuation bytes are
    still expected for the code point accumulated in [acc]. *)
Fixpoint utf8 (acc : N) (k : nat) (bs : list N) : str :=
  match bs with
  | [] => []
  | b :: bs' =>
      match k with
      | O => if b <? 128 then b :: utf8 0 O bs'
             else if b <? 224 then utf8 (b - 192) 1%nat bs'
             else if b <? 240 then utf8 (b - 224) 2%nat bs'
             else utf8 (b - 240) 3%nat bs'
      | S O => (acc * 64 + (b - 128)) :: utf8 0 O bs'
      | S k' => utf8 (acc * 64 + (b - 128)) k' bs'
      end
  end.

(** The Python string written as the literal [s]. *)
Definition py (s : string) : str :=
  utf8 0 O (map N_of_ascii (list_ascii_of_string s)).

Definition comma : N := 44.
Definition underscore : N := 95.

(** [str.isspace] on one character (Unicode 14 character database). *)
Definition isspace (c : N) : bool :=
  ((9 <=? c) && (c <=? 13)) || ((28 <=? c) && (c <=? 32))
  || (c =? 133) || (c =? 160) || (c =? 5760)
  || ((8192 <=? c) && (c <=? 8202))
  || (c =? 8232) || (c =? 8233) || (c =? 8239) || (c =? 8287) || (c =? 12288).

Fixpoint lstrip_by (f : N -> bool) (s : str) : str :=
  match s with
  | c :: s' => if f c then lstrip_by f s' else s
  | [] => []
  end.

Definition strip_by (f : N -> bool) (s : str) : str :=
  rev (lstrip_by f (rev (lstrip_by f s))).

Fixpoint take_while (f : N -> bool) (s : str) : str :=
  match s with
  | c :: s' => if f c then c :: take_while f s' else []
  | [] => []
  end.

(** [s.strip()] *)
Definition strip (s : str) : str := strip_by isspace s.

(** [s.split(sep)] for a one-character separator: one part more than
    there are separators, empty parts kept. *)
Fixpoint split (sep : N) (s : str) : list str :=
  match s with
  | [] => [[]]
  | c :: s' =>
      if c =? sep then [] :: split sep s'
      else match split sep s' with
           | p :: ps => (c :: p) :: ps
           | [] => [[c]]
           end
  end.

(** [s.split(sep, 1)]: split at the first separator only. *)
Fixpoint split_first (sep : N) (s : str) : list str :=
  match s with
  | [] => [[]]
  | c :: s' =>
      if c =? sep then [[]; s']
      else match split_first sep s' with
           | p :: ps => (c :: p) :: ps
           | [] => [[c]]
           end
  end.

(** ** Numbers from text

    [float(s)] and [int(s)] of CPython on a [str] argument: the string is
    first rewritten to ASCII (every Unicode space becomes a blank, every
    Unicode decimal digit its ASCII digit, and the first other character
    above ASCII becomes a question mark that ends the string), then
    parsed.  A failed parse is [ValueError], here [None]. *)

(** Code points of the digit zero of every decimal digit system; the
    digits 0 to 9 of a system are consecutive. *)
Definition decimal_zeros : list N :=
  [48; 1632; 1776; 1984; 2406; 2534; 2662; 2790; 2918; 3046; 3174; 3302;
   3430; 3558; 3664; 3792; 3872; 4160; 4240; 6112; 6160; 6470; 6608; 6784;
   6800; 6992; 7088; 7232; 7248; 42528; 43216; 43264; 43472; 43504; 43600;
   44016; 65296; 66720; 68912; 69734; 69872; 69942; 70096; 70384; 70736;
   70864; 71248; 71360; 71472; 71904; 72016; 72784; 73040; 73120; 92768;
   92864; 93008; 120782; 120792; 120802; 120812; 120822; 123200; 123632;
   125264; 130032].

(** [Py_UNICODE_TODECIMAL] *)
Definition todecimal (c : N) : option N :=
  match find (fun z => (z <=? c) && (c <? z + 10)) decimal_zeros with
  | Some z => Some (c - z)
  | None => None
  end.

Definition question_mark : N := 63.

(** The rewriting of a string that is not all ASCII. *)
Fixpoint transform (s : str) : str :=
  match s with
  | [] => []
  | c :: s' =>
      if c <? 127 then c :: transform s'
      else if isspace c then 32 :: transform s'
      else match todecimal c with
           | Some d => (48 + d) :: transform s'
           | None => [question_mark]
           end
  end.

(** [_PyUnicode_TransformDecimalAndSpaceToASCII]: an ASCII string is
    returned as it is. *)
Definition to_ascii (s : str) : str :=
  if forallb (fun c => c <? 128) s then s else transform s.

Definition is_digit (c : N) : bool := (48 <=? c) && (c <=? 57).

(** [Py_ISSPACE] *)
Definition is_ascii_space (c : N) : bool :=
  ((9 <=? c) && (c <=? 13)) || (c =? 32).

(** The longest prefix of ASCII digits, and what follows it. *)
Fixpoint span_digits (s : str) : str * str :=
  match s with
  | c :: s' =>
      if is_digit c then let '(ds, r) := span_digits s' in (c :: ds, r)
      else ([], s)
  | [] => ([], [])
  end.

(** The number written by a string of ASCII digits. *)
Definition digits_value (ds : str) : Z :=
  fold_left (fun acc c => (10 * acc + Z.of_N (c - 48))%Z) ds 0%Z.

(** Digit separators of a float literal: an underscore is legal only
    between two digits; the result is the text without them.  [prev] is
    the character before [s]. *)
Fixpoint remove_underscores (prev : N) (s : str) : option str :=
  match s with
  | [] => if prev =? underscore then None else Some []
  | c :: s' =>
      if c =? underscore then
        if is_digit prev then remove_underscores c s' else None
      else if (prev =? underscore) && negb (is_digit c) then None
      else option_map (cons c) (remove_underscores c s')
  end.

Definition lower (c : N) : N :=
  if (65 <=? c) && (c <=? 90) then c + 32 else c.

(** An optional sign: whether it is a minus, and the rest. *)
Definition sign_of (s : str) : bool * str :=
  match s with
  | c :: s' =>
      if c =? 45 then (true, s')
      else if c =? 43 then (false, s')
      else (false, s)
  | [] => (false, s)
  end.

(** The digits after a decimal point, if there is one, and the rest. *)
Definition fraction_of (s : str) : str * str :=
  match s with
  | c :: s' => if c =? 46 then span_digits s' else ([], s)
  | [] => ([], s)
  end.

(** ** Floats *)

Abbreviation float := spec_float.

Definition prec : Z := 53.
Definition emax : Z := 1024.

Definition fzero : float := S754_zero false.
Definition fadd : float -> float -> float := SFadd prec emax.
(** [x > y] on floats: false whenever an operand is NaN. *)
Definition fgt (x y : float) : bool := SFltb y x.

(** The binary64 value nearest to [m * 10 ^ e] (ties to even; infinite
    beyond the largest finite value), for [m > 0]. *)
Definition round_decimal (neg : bool) (m : positive) (e : Z) : float :=
  match e with
  | Zneg p =>
      let '(q, e', l) :=
        SFdiv_core_binary prec emax (Zpos m) 0 (Z.pow 10 (Zpos p)) 0 in
      binary_round_aux prec emax neg q e' l
  | _ => binary_round prec emax neg (m * Z.to_pos (Z.pow 10 e))%positive 0
  end.

(** [inf], [infinity] and [nan] in any letter case, after the sign. *)
Definition parse_inf_nan (neg : bool) (s : str) : option float :=
  let l := map lower s in
  if decide (l = py "inf" \/ l = py "infinity") then Some (S754_infinity neg)
  else if decide (l = py "nan") then Some S754_nan
  else None.

(** The exponent part of a float literal, which may be absent; a letter
    e that no digit follows is an error. *)
Definition parse_exponent (s : str) : option Z :=
  match s with
  | [] => Some 0%Z
  | c :: s' =>
      if (c =? 101) || (c =? 69) then
        let '(neg, s'') := sign_of s' in
        match span_digits s'' with
        | ((_ :: _) as ds, []) =>
            Some (if neg then - digits_value ds else digits_value ds)%Z
        | _ => None
        end
      else None
  end.

(** A float literal without blanks and underscores. *)
Definition parse_float_literal (s : str) : option float :=
  let '(neg, s1) := sign_of s in
  let '(ip, s2) := span_digits s1 in
  let '(fp, s3) := fraction_of s2 in
  match ip ++ fp with
  | [] => parse_inf_nan neg s1
  | ds =>
      match parse_exponent s3 with
      | Some e =>
          match digits_value ds with
          | Zpos m => Some (round_decimal neg m (e - Z.of_nat (length fp)))
          | _ => Some (S754_zero neg)
          end
      | None => None
      end
  end.

(** [float(s)] *)
Definition py_float (s : str) : option float :=
  match remove_underscores 0 (to_ascii s) with
  | Some t => parse_float_literal (strip_by is_ascii_space t)
  | None => None
  end.

(** Decimal digits of an int literal with single underscores between
    them, and what follows. *)
Fixpoint scan_int (prev : N) (s : str) : option (str * str) :=
  match s with
  | [] => if prev =? underscore then None else Some ([], [])
  | c :: s' =>
      if is_digit c then
        match scan_int c s' with
        | Some (ds, r) => Some (c :: ds, r)
        | None => None
        end
      else if c =? underscore then
        if prev =? underscore then None else scan_int c s'
      else if prev =? underscore then None
      else Some ([], s)
  end.

(** Longest digit string [int] converts (the interpreter's default). *)
Definition max_str_digits : nat := 4300.

(** [int(s)] *)
Definition py_int (s : str) : option Z :=
  let '(neg, s1) := sign_of (lstrip_by is_ascii_space (to_ascii s)) in
  match s1 with
  | [] => None
  | c :: _ =>
      if c =? underscore then None
      else match scan_int 0 s1 with
           | Some ((_ :: _) as ds, r) =>
               match lstrip_by is_ascii_space r with
               | [] =>
                   if (max_str_digits <? length ds)%nat then None
                   else Some (if neg then - digits_value ds else digits_value ds)%Z
               | _ => None
               end
           | _ => None
           end
  end.

(** [str(n)] for an int *)
Definition str_of_int (n : Z) : str :=
  py (DecimalString.NilZero.string_of_int (Z.to_int n)).

(** ** Record store *)

(** One entry of a user's ["expenses"] list. *)
Record Expense := {
  category : str;
  amount : float;
  date : str
}.

(** The value stored for one user.  [state] is [None] or one of the
    strings below; the default limit, the int 0, is the float zero
    (Python compares and adds them alike). *)
Record User := {
  expenses : list Expense;
  daily_limit : float;
  state : option str
}.

Definition state_add_expense : option str := Some (py "add_expense").
Definition state_set_daily_limit : option str := Some (py "set_daily_limit").
Definition state_delete_expense : option str := Some (py "delete_expense").

(** [{"expenses": [], "daily_limit": 0, "state": None}] *)
Definition new_user : User :=
  {| expenses := []; daily_limit := fzero; state := None |}.

Definition with_state (st : option str) (u : User) : User :=
  {| expenses := expenses u; daily_limit := daily_limit u; state := st |}.

Definition with_expenses (es : list Expense) (u : User) : User :=
  {| expenses := es; daily_limit := daily_limit u; state := state u |}.

Definition with_daily_limit (l : float) (u : User) : User :=
  {| expenses := expenses u; daily_limit := l; state := state u |}.

(** ** Effects *)

(** The handlers registered for the next message of a chat. *)
Inductive StepHandler := ProcessExpense | ProcessDailyLimit | ProcessDeleteExpense.

(** The text of a message the bot sends: the template, and the values
    formatted into it. *)
Inductive Text :=
  | Welcome
  | AskExpense
  | AskDailyLimit
  | NoExpensesYet
  | ExpenseReport (items : list Expense)
  | NothingToDelete
  | AskDeleteIndex (items : list Expense)
  | ExpenseAdded
  | ExpenseFormatError
  | DailyLimitSet (limit : float)
  | DailyLimitError
  | ExpenseDeleted (category : str) (amount : float)
  | InvalidNumber
  | EnterNumber
  | LimitExceeded (limit spent : float).

(** A reply keyboard: its rows of button labels. *)
Abbreviation Keyboard := (list (list str)).

(** What a handler does to the outside: [bot.send_message] to a chat, with
    or without a keyboard as [reply_markup], and the rewriting of the data
    file with the whole map of users. *)
Inductive Effect :=
  | Send (chat : str) (text : Text) (reply_markup : option Keyboard)
  | Save (file : gmap str User).

Inductive Exn := ValueError | KeyError | IndexError.

(** The mutable state: [self.users], and the next-step handlers the bot
    object holds for every chat. *)
Record World := {
  users : gmap str User;
  next_step : gmap Z (list StepHandler)
}.

Definition with_users (us : gmap str User) (w : World) : World :=
  {| users := us; next_step := next_step w |}.

(** A computation: its outcome, the state it leaves and the effects it
    performed, oldest first. *)
Definition M (A : Type) : Type := World -> (Exn + A) * World * list Effect.

Definition ret {A} (a : A) : M A := fun w => (inr a, w, []).

Definition raise {A} (e : Exn) : M A := fun w => (inl e, w, []).

Definition bind {A B} (m : M A) (k : A -> M B) : M B :=
  fun w =>
    match m w with
    | (inl e, w1, o1) => (inl e, w1, o1)
    | (inr a, w1, o1) =>
        let '(r, w2, o2) := k a w1 in (r, w2, o1 ++ o2)
    end.

Declare Scope py_scope.
Delimit Scope py_scope with py.
Notation "x <- m ;; k" := (bind m (fun x => k))
  (at level 90, m at next level, right associativity) : py_scope.
Notation "m ;;; k" := (bind m (fun _ => k))
  (at level 90, right associativity) : py_scope.
Local Open Scope py_scope.

(** [try: body except ValueError: handler] *)
Definition try_except_ValueError (body handler : M unit) : M unit :=
  fun w =>
    match body w with
    | (inl ValueError, w1, o1) =>
        let '(r, w2, o2) := handler w1 in (r, w2, o1 ++ o2)
    | res => res
    end.

Definition get_users : M (gmap str User) := fun w => (inr (users w), w, []).

Definition set_users (us : gmap str User) : M unit :=
  fun w => (inr tt, with_users us w, []).

(** [self.users[chat_id]] *)
Definition get_user (chat_id : str) : M User :=
  us <- get_users ;;
  match us !! chat_id with
  | Some u => ret u
  | None => raise KeyError
  end.

(** [self.users[chat_id] = u] *)
Definition set_user (chat_id : str) (u : User) : M unit :=
  us <- get_users ;; set_users (<[chat_id := u]> us).

Definition perform (e : Effect) : M unit := fun w => (inr tt, w, [e]).

Definition send_message (chat : str) (t : Text)
    (reply_markup : option Keyboard) : M unit :=
  perform (Send chat t reply_markup).

(** A failed conversion raises [ValueError]. *)
Definition convert {A} (o : option A) : M A :=
  match o with
  | Some a => ret a
  | None => raise ValueError
  end.

(** [bot.register_next_step_handler]: the handler joins those waiting for
    the next message of the chat. *)
Definition register_next_step_handler (chat : Z) (h : StepHandler) : M unit :=
  fun w =>
    (inr tt,
     {| users := users w;
        next_step := <[chat := default [] (next_step w !! chat) ++ [h]]> (next_step w) |},
     []).

(** An incoming text message. *)
Record Message := {
  chat : Z;
  text : str
}.

(** ** BaseHandler *)

(** The map of users at the start: the content of the data file, if there
    is one. *)
Definition load_user_data (file : option (gmap str User)) : gmap str User :=
  match file with
  | Some us => us
  | None => ∅
  end.

Definition save_user_data : M unit :=
  us <- get_users ;; perform (Save us).

Definition get_user_state (chat_id : str) : M (option str) :=
  us <- get_users ;;
  ret (match us !! chat_id with
       | Some u => state u
       | None => None
       end).

Definition set_user_state (chat_id : str) (st : option str) : M unit :=
  us <- get_users ;;
  (match us !! chat_id with
   | None => set_user chat_id new_user
   | Some _ => ret tt
   end) ;;;
  u <- get_user chat_id ;;
  set_user chat_id (with_state st u) ;;;
  save_user_data.

(** ** FinanceBot *)

(** The labels of the four menu buttons. *)
Definition btn_add_expense : str := py "Добавить расход".
Definition btn_set_daily_limit : str := py "Установить бюджет на день".
Definition btn_view_expenses : str := py "Просмотр расходов".
Definition btn_delete_expense : str := py "Удалить расход".

Definition main_menu : Keyboard :=
  [[btn_add_expense; btn_view_expenses];
   [btn_set_daily_limit; btn_delete_expense]].

(** [sum] of floats: they are added one after the other, from the int 0.
    (CPython 3.12 and later also carry a correction term for the rounding
    errors of the additions.) *)
Definition py_sum (xs : list float) : float := fold_left fadd xs fzero.

(** The amounts of the expenses recorded on the day [today]. *)
Definition amounts_on (today : str) (es : list Expense) : list float :=
  map amount (filter (fun e => date e = today) es).

(** [today] is the day the clock shows when the check runs. *)
Definition check_daily_limit (chat_id : str) (today : str) : M unit :=
  u <- get_user chat_id ;;
  let daily_expenses := py_sum (amounts_on today (expenses u)) in
  let daily_limit := daily_limit u in
  if fgt daily_limit fzero && fgt daily_expenses daily_limit then
    send_message chat_id (LimitExceeded daily_limit daily_expenses) None
  else ret tt.

(** Lines 131 to 133: the category and the amount written in the text of
    an expense message. *)
Definition parse_expense (text : str) : option (str * float) :=
  match split comma text with
  | [category; amount] =>
      match py_float (strip amount) with
      | Some a => Some (strip category, a)
      | None => None
      end
  | _ => None
  end.

(** [date] is the day the clock shows when the expense is recorded, and
    [today] the day it shows when the limit is checked. *)
Definition process_expense (message : Message) (date today : str) : M unit :=
  let chat_id := str_of_int (chat message) in
  try_except_ValueError
    (p <- convert (parse_expense (text message)) ;;
     u <- get_user chat_id ;;
     set_user chat_id
       (with_expenses
          (expenses u ++ [{| category := fst p; amount := snd p; date := date |}]) u) ;;;
     save_user_data ;;;
     check_daily_limit chat_id today ;;;
     send_message chat_id ExpenseAdded (Some main_menu) ;;;
     set_user_state chat_id None)
    (send_message chat_id ExpenseFormatError None).

Definition process_daily_limit (message : Message) : M unit :=
  let chat_id := str_of_int (chat message) in
  try_except_ValueError
    (l <- convert (py_float (strip (text message))) ;;
     u <- get_user chat_id ;;
     set_user chat_id (with_daily_limit l u) ;;;
     save_user_data ;;;
     u' <- get_user chat_id ;;
     send_message chat_id (DailyLimitSet (daily_limit u')) (Some main_menu) ;;;
     set_user_state chat_id None)
    (send_message chat_id DailyLimitError None).

Definition process_delete_expense (message : Message) : M unit :=
  let chat_id := str_of_int (chat message) in
  try_except_ValueError
    (n <- convert (py_int (strip (text message))) ;;
     let index := (n - 1)%Z in
     u <- get_user chat_id ;;
     if ((0 <=? index)%Z && (index <? Z.of_nat (length (expenses u)))%Z)%bool then
       match expenses u !! Z.to_nat index with
       | Some deleted =>
           set_user chat_id (with_expenses (delete (Z.to_nat index) (expenses u)) u) ;;;
           save_user_data ;;;
           send_message chat_id
             (ExpenseDeleted (category deleted) (amount deleted)) (Some main_menu) ;;;
           set_user_state chat_id None
       | None => raise IndexError
       end
     else send_message chat_id InvalidNumber None)
    (send_message chat_id EnterNumber None).

Definition send_welcome (message : Message) : M unit :=
  let chat_id := str_of_int (chat message) in
  set_user_state chat_id None ;;;
  send_message chat_id Welcome (Some main_menu).

Definition add_expense (message : Message) : M unit :=
  let chat_id := str_of_int (chat message) in
  set_user_state chat_id state_add_expense ;;;
  send_message chat_id AskExpense None ;;;
  register_next_step_handler (chat message) ProcessExpense.

Definition set_daily_limit (message : Message) : M unit :=
  let chat_id := str_of_int (chat message) in
  set_user_state chat_id state_set_daily_limit ;;;
  send_message chat_id AskDailyLimit None ;;;
  register_next_step_handler (chat message) ProcessDailyLimit.

Definition view_expenses (message : Message) : M unit :=
  let chat_id := str_of_int (chat message) in
  set_user_state chat_id None ;;;
  u <- get_user chat_id ;;
  match expenses u with
  | [] => send_message chat_id NoExpensesYet None
  | es => send_message chat_id (ExpenseReport es) None
  end.

Definition delete_expense (message : Message) : M unit :=
  let chat_id := str_of_int (chat message) in
  set_user_state chat_id state_delete_expense ;;;
  u <- get_user chat_id ;;
  match expenses u with
  | [] => send_message chat_id NothingToDelete None
  | es =>
      send_message chat_id (AskDeleteIndex es) None ;;;
      register_next_step_handler (chat message) ProcessDeleteExpense
  end.

(** ** Dispatch of the incoming messages

    [start] registers five message handlers and starts [bot.polling],
    which passes every incoming message to the bot library's
    [process_new_messages].  For a text message that does the following:
    the handlers that [register_next_step_handler] has stored for the chat,
    if any, are taken out of the bot and called with the message, which
    then reaches no message handler; otherwise the first message handler
    whose filter accepts the message is called, in the order of the
    registrations in [start], and a message that no filter accepts is
    dropped. *)

Inductive MessageHandler :=
  SendWelcome | AddExpense | SetDailyLimit | ViewExpenses | DeleteExpense.

(** The command of a message, for the filter [commands=['start']]: the
    text from the slash to the first blank or at sign. *)
Definition extract_command (text : str) : option str :=
  match text with
  | c :: rest =>
      if c =? 47
      then Some (take_while (fun c => negb (isspace c || (c =? 64))) rest)
      else None
  | [] => None
  end.

Definition message_handler (text : str) : option MessageHandler :=
  if decide (extract_command text = Some (py "start")) then Some SendWelcome
  else if decide (text = btn_add_expense) then Some AddExpense
  else if decide (text = btn_set_daily_limit) then Some SetDailyLimit
  else if decide (text = btn_view_expenses) then Some ViewExpenses
  else if decide (text = btn_delete_expense) then Some DeleteExpense
  else None.

Definition run_message_handler (h : MessageHandler) (message : Message) : M unit :=
  match h with
  | SendWelcome => send_welcome message
  | AddExpense => add_expense message
  | SetDailyLimit => set_daily_limit message
  | ViewExpenses => view_expenses message
  | DeleteExpense => delete_expense message
  end.

Definition run_step_handler (h : StepHandler) (message : Message)
    (date today : str) : M unit :=
  match h with
  | ProcessExpense => process_expense message date today
  | ProcessDailyLimit => process_daily_limit message
  | ProcessDeleteExpense => process_delete_expense message
  end.

Fixpoint run_step_handlers (hs : list StepHandler) (message : Message)
    (date today : str) : M unit :=
  match hs with
  | [] => ret tt
  | h :: hs' =>
      run_step_handler h message date today ;;;
      run_step_handlers hs' message date today
  end.

(** The handlers waiting for the next message of the chat are taken out
    before they are called. *)
Definition take_next_step_handlers (chat : Z) : M (list StepHandler) :=
  fun w =>
    (inr (default [] (next_step w !! chat)),
     {| users := users w; next_step := delete chat (next_step w) |},
     []).

Definition process_new_message (message : Message) (date today : str) : M unit :=
  hs <- take_next_step_handlers (chat message) ;;
  match hs with
  | [] =>
      match message_handler (text message) with
      | Some h => run_message_handler h message
      | None => ret tt
      end
  | _ => run_step_handlers hs message date today
  end.

(** The bot starts without a data file: no users, no handler waiting. *)
Definition initial : World :=
  {| users := load_user_data None; next_step := ∅ |}.

(** The state after one more message, whatever the outcome of its handler. *)
Definition step (w : World) (message : Message) (date today : str) : World :=
  snd (fst (process_new_message message date today w)).

Inductive reachable : World -> Prop :=
  | reachable_initial : reachable initial
  | reachable_step w message date today :
      reachable w -> reachable (step w message date today).

(** * Notions used in the statements *)

(** The record [set_user_state] leaves for a user: the stored one with the
    new state, or a new one. *)
Definition state_set (st : option str) (o : option User) : User :=
  match o with
  | Some u => {| expenses := expenses u; daily_limit := daily_limit u; state := st |}
  | None => {| expenses := []; daily_limit := fzero; state := st |}
  end.

(** The user's record once the expense [e] is recorded. *)
Definition expense_added (e : Expense) (u : User) : User :=
  {| expenses := expenses u ++ [e]; daily_limit := daily_limit u; state := state u |}.

(** The warning of [check_daily_limit], if it is due. *)
Definition limit_warning (chat_id today : str) (u : User) : list Effect :=
  let spent := py_sum (amounts_on today (expenses u)) in
  if fgt (daily_limit u) fzero && fgt spent (daily_limit u)
  then [Send chat_id (LimitExceeded (daily_limit u) spent) None]
  else [].

Definition is_warning (e : Effect) : bool :=
  match e with
  | Send _ (LimitExceeded _ _) _ => true
  | _ => false
  end.

(** The limit warnings among the effects of a handler. *)
Definition warnings (effs : list Effect) : list Effect :=
  List.filter is_warning effs.

(** Every handler of the bot. *)
Inductive Handler :=
  | OnMessage (h : MessageHandler)
  | OnNextStep (h : StepHandler).

Definition run_handler (h : Handler) (message : Message) (date today : str) : M unit :=
  match h with
  | OnMessage h => run_message_handler h message
  | OnNextStep h => run_step_handler h message date today
  end.

(** The reading of an expense message that the specification describes:
    the text is cut at its first comma only. *)
Definition parse_expense_spec (text : str) : option (str * float) :=
  match split_first comma text with
  | [category; amount] =>
      match py_float (strip amount) with
      | Some a => Some (strip category, a)
      | None => None
      end
  | _ => None
  end.

(** Neither a comma nor the mark of an unconvertible character. *)
Definition plain (c : N) : Prop := c <> comma /\ c <> question_mark.

(** The step handler [h] turns the text down: it does not parse, or it is
    a number that counts none of the user's expenses. *)
Definition rejects (h : StepHandler) (u : User) (text : str) : bool :=
  match h with
  | ProcessExpense =>
      match parse_expense text with Some _ => false | None => true end
  | ProcessDailyLimit =>
      match py_float (strip text) with Some _ => false | None => true end
  | ProcessDeleteExpense =>
      match py_int (strip text) with
      | Some i => negb ((1 <=? i)%Z && (i <=? Z.of_nat (length (expenses u)))%Z)
      | None => true
      end
  end.

(** The reply of the step handler [h] to a text it turns down. *)
Definition rejection (h : StepHandler) (text : str) : Text :=
  match h with
  | ProcessExpense => ExpenseFormatError
  | ProcessDailyLimit => DailyLimitError
  | ProcessDeleteExpense =>
      match py_int (strip text) with
      | Some _ => InvalidNumber
      | None => EnterNumber
      end
  end.

(** [0 <= x] on floats; false for NaN. *)
Definition nonnegative (x : float) : bool := SFleb fzero x.

(** A limit is the default one or what [float] made of some text. *)
Definition entered (l : float) : Prop :=
  l = fzero \/ exists s : str, py_float s = Some l.

(** Every stored limit is the default one or was entered. *)
Definition limits_entered (w : World) : Prop :=
  forall (k : str) (u : User), users w !! k = Some u -> entered (daily_limit u).

(** The computation [c] keeps [limits_entered], and its value satisfies [Q]. *)
Definition keeps {A} (c : M A) (Q : A -> Prop) : Prop :=
  forall w : World, limits_entered w ->
    limits_entered (snd (fst (c w))) /\
    match fst (fst (c w)) with
    | inr a => Q a
    | inl _ => True
    end.

(** The state after the messages [ms] of one chat, handled in order at the
    day [day]. *)
Definition after (chat : Z) (day : str) (ms : list str) : World :=
  fold_left (fun w t => step w {| chat := chat; text := t |} day day) ms initial.

(** ** A conversation, for examples *)

Definition a_day : str := py "2024-05-01".

Definition coffee : Expense :=
  {| category := py "Coffee";
     amount := S754_finite false 5277655813324800 (-45);
     date := a_day |}.

Definition lunch : Expense :=
  {| category := py "Lunch";
     amount := S754_finite false 8444249301319680 (-47);
     date := a_day |}.

(** The chat 7 after the button to add an expense. *)
Definition asked_expense : World := after 7 a_day [btn_add_expense].

(** The chat 7 with two expenses, after the button to delete one. *)
Definition asked_delete_index : World :=
  after 7 a_day
    [btn_add_expense; py "Coffee, 150"; btn_add_expense; py "Lunch, 60";
     btn_delete_expense].

(** The chat 7 after the button to set the limit and the answer -5. *)
Definition limit_minus_five : World :=
  after 7 a_day [btn_set_daily_limit; py "-5"].

(** * Further notions *)

(** The state a computation leaves, its outcome and its effects. *)
Definition state_after {A} (c : M A) (w : World) : World := snd (fst (c w)).
Definition outcome {A} (c : M A) (w : World) : Exn + A := fst (fst (c w)).
Definition effects {A} (c : M A) (w : World) : list Effect := snd (c w).

(** The map written last to the data file, if any was written. *)
Fixpoint last_save (o : list Effect) : option (gmap str User) :=
  match o with
  | [] => None
  | e :: o' =>
      match last_save o' with
      | Some file => Some file
      | None =>
          match e with
          | Save file => Some file
          | Send _ _ _ => None
          end
      end
  end.

(** The data file holds the map of users that [c] leaves, or [c] wrote no
    file and left the map as it was. *)
Definition synced {A} (c : M A) : Prop :=
  forall w : World,
    match last_save (effects c w) with
    | Some file => file = users (state_after c w)
    | None => users (state_after c w) = users w
    end.

(** The computation [c] relates the state before to the state after by [R]. *)
Definition respects {A} (R : World -> World -> Prop) (c : M A) : Prop :=
  forall w : World, R w (state_after c w).

(** From [w] to [w'] the waiting handlers are the same, only the record
    of [key] may differ, and it is not removed. *)
Definition touches_only (key : str) (w w' : World) : Prop :=
  next_step w' = next_step w /\
  (forall k : str, k <> key -> users w' !! k = users w !! k) /\
  (is_Some (users w !! key) -> is_Some (users w' !! key)).

(** The state under which a step handler is registered. *)
Definition awaited (h : StepHandler) : option str :=
  match h with
  | ProcessExpense => state_add_expense
  | ProcessDailyLimit => state_set_daily_limit
  | ProcessDeleteExpense => state_delete_expense
  end.

(** The state that a message handler sets. *)
Definition state_set_by (h : MessageHandler) : option str :=
  match h with
  | SendWelcome => None
  | AddExpense => state_add_expense
  | SetDailyLimit => state_set_daily_limit
  | ViewExpenses => None
  | DeleteExpense => state_delete_expense
  end.

(** The conversion at the head of a step handler succeeds on the text. *)
Definition converts (h : StepHandler) (text : str) : bool :=
  match h with
  | ProcessExpense =>
      match parse_expense text with Some _ => true | None => false end
  | ProcessDailyLimit =>
      match py_float (strip text) with Some _ => true | None => false end
  | ProcessDeleteExpense =>
      match py_int (strip text) with Some _ => true | None => false end
  end.

(** For every chat at most one step handler waits, its user has a record,
    and the state stored there is the one the handler was registered
    under. *)
Definition handlers_consistent (w : World) : Prop :=
  forall (c : Z) (hs : list StepHandler),
    next_step w !! c = Some hs ->
    exists (h : StepHandler) (u : User),
      hs = [h] /\ users w !! str_of_int c = Some u /\ state u = awaited h.

(** An expense as [process_expense] records it: the category is stripped
    and has no comma, the amount is what [float] made of some text. *)
Definition well_formed (e : Expense) : Prop :=
  (comma ∉ category e) /\
  strip (category e) = category e /\
  exists s : str, py_float s = Some (amount e).

(** Every record of the store satisfies [P]. *)
Definition all_records (P : User -> Prop) (w : World) : Prop :=
  forall (k : str) (u : User), users w !! k = Some u -> P u.

(** The values that the handlers give to the state of a user. *)
Definition known_state (st : option str) : Prop :=
  st = None \/ st = state_add_expense \/ st = state_set_daily_limit \/
  st = state_delete_expense.

(** The chat 7 with the limit 100, after an expense of amount nan. *)
Definition spent_nan : World :=
  after 7 a_day
    [btn_set_daily_limit; py "100"; btn_add_expense; py "x, nan"].

(** * Properties *)

Ltac unfold_monad :=
  unfold try_except_ValueError, save_user_data, get_user_state, get_user,
    set_user, send_message, perform, convert, get_users, set_users, bind,
    ret, raise, with_users.

Arguments set_user_state : simpl never.
Arguments check_daily_limit : simpl never.
Arguments str_of_int : simpl never.
Arguments parse_expense : simpl never.
Arguments py_float : simpl never.
Arguments py_int : simpl never.
Arguments strip : simpl never.

(** ** The conversions on some texts *)

Example float_150 :
  py_float (py "150") = Some (S754_finite false 5277655813324800 (-45)).
Proof. vm_compute. reflexivity. Qed.

Example float_tenth :
  py_float (py " 0.1 ") = Some (S754_finite false 7205759403792794 (-56)).
Proof. vm_compute. reflexivity. Qed.

Example float_separator : py_float (py "1_000.5e-1") = py_float (py "100.05").
Proof. vm_compute. reflexivity. Qed.

Example float_overflow : py_float (py "-1e400") = Some (S754_infinity true).
Proof. vm_compute. reflexivity. Qed.

Example float_nan : py_float (py "NaN") = Some S754_nan.
Proof. vm_compute. reflexivity. Qed.

Example float_comma : py_float (py "1,5") = None.
Proof. vm_compute. reflexivity. Qed.

Example float_other_digits : py_float [1633; 1634] = py_float (py "12").
Proof. vm_compute. reflexivity. Qed.

Example int_signed : py_int (py " -0012 ") = Some (-12)%Z.
Proof. vm_compute. reflexivity. Qed.

Example int_fraction : py_int (py "1.0") = None.
Proof. vm_compute. reflexivity. Qed.

Example split_commas : split comma (py "a,b,,c") = [py "a"; py "b"; []; py "c"].
Proof. vm_compute. reflexivity. Qed.

Example split_first_commas :
  split_first comma (py "a,b,,c") = [py "a"; py "b,,c"].
Proof. vm_compute. reflexivity. Qed.

Example strip_blanks : strip (py "  Coffee ") = py "Coffee".
Proof. vm_compute. reflexivity. Qed.

Example str_of_int_negative : str_of_int (-42) = py "-42".
Proof. vm_compute. reflexivity. Qed.

(** The conversation of the specification: an expense of 150, the limit
    100, then an expense of 60 on the same day.  The last message brings
    the warning with the limit 100 and the sum 210. *)
Example conversation_warning :
  let w := after 7 a_day
             [py "/start"; btn_add_expense; py "Coffee, 150";
              btn_set_daily_limit; py "100"; btn_add_expense] in
  warnings
    (snd (process_new_message {| chat := 7; text := py "Lunch, 60" |} a_day a_day w)) =
    [Send (py "7")
       (LimitExceeded (S754_finite false 7036874417766400 (-46))
                      (S754_finite false 7388718138654720 (-45))) None]
  /\ py_float (py "100") = Some (S754_finite false 7036874417766400 (-46))
  /\ py_float (py "210") = Some (S754_finite false 7388718138654720 (-45)).
Proof. vm_compute. repeat split; reflexivity. Qed.


(** ** Splitting *)

Lemma split_without (sep : N) (s : str) : sep ∉ s -> split sep s = [s].
Proof.
  induction s as [|c s IH]; intros H; simpl; [reflexivity|].
  apply not_elem_of_cons in H as [Hc Hs].
  destruct (N.eqb_spec c sep); [congruence|]. rewrite IH by assumption. reflexivity.
Qed.

Lemma split_at_first (sep : N) (l r : str) :
  sep ∉ l -> split sep (l ++ sep :: r) = l :: split sep r.
Proof.
  induction l as [|c l IH]; intros H; simpl.
  - rewrite N.eqb_refl. reflexivity.
  - apply not_elem_of_cons in H as [Hc Hl].
    destruct (N.eqb_spec c sep); [congruence|]. rewrite IH by assumption. reflexivity.
Qed.

Lemma split_with (sep : N) (s : str) :
  sep ∈ s -> exists p q ps, split sep s = p :: q :: ps.
Proof.
  induction s as [|c s IH]; intros H; [inversion H|]. simpl.
  destruct (N.eqb_spec c sep) as [->|Hne].
  - destruct s as [|c' s']; simpl; [eauto|].
    destruct (c' =? sep); [eauto|]. destruct (split sep s'); eauto.
  - apply elem_of_cons in H as [H|H]; [congruence|].
    destruct (IH H) as (p & q & ps & ->). eauto.
Qed.

Lemma split_first_without (sep : N) (s : str) : sep ∉ s -> split_first sep s = [s].
Proof.
  induction s as [|c s IH]; intros H; simpl; [reflexivity|].
  apply not_elem_of_cons in H as [Hc Hs].
  destruct (N.eqb_spec c sep); [congruence|]. rewrite IH by assumption. reflexivity.
Qed.

Lemma split_first_at_first (sep : N) (l r : str) :
  sep ∉ l -> split_first sep (l ++ sep :: r) = [l; r].
Proof.
  induction l as [|c l IH]; intros H; simpl.
  - rewrite N.eqb_refl. reflexivity.
  - apply not_elem_of_cons in H as [Hc Hl].
    destruct (N.eqb_spec c sep); [congruence|]. rewrite IH by assumption. reflexivity.
Qed.

(** A string with a separator, cut at the first one. *)
Lemma first_separator (sep : N) (s : str) :
  sep ∈ s -> exists l r, s = l ++ sep :: r /\ sep ∉ l.
Proof.
  induction s as [|c s IH]; intros H; [inversion H|].
  destruct (decide (c = sep)) as [->|Hne].
  - exists [], s. split; [reflexivity|]. apply not_elem_of_nil.
  - apply elem_of_cons in H as [H|H]; [congruence|].
    destruct (IH H) as (l & r & -> & Hl). exists (c :: l), r. split; [reflexivity|].
    apply not_elem_of_cons. auto.
Qed.

(** ** Stripping keeps every character that is not stripped *)

Lemma lstrip_by_keeps (f : N -> bool) (c : N) (s : str) :
  f c = false -> c ∈ s -> c ∈ lstrip_by f s.
Proof.
  intros Hf. induction s as [|d s IH]; intros H; simpl; [assumption|].
  destruct (f d) eqn:E; [|assumption].
  apply elem_of_cons in H as [->|H]; [congruence|auto].
Qed.

Lemma strip_by_keeps (f : N -> bool) (c : N) (s : str) :
  f c = false -> c ∈ s -> c ∈ strip_by f s.
Proof.
  intros Hf H. unfold strip_by.
  rewrite list_elem_of_In, <- in_rev, <- list_elem_of_In.
  apply lstrip_by_keeps; [assumption|].
  rewrite list_elem_of_In, <- in_rev, <- list_elem_of_In.
  apply lstrip_by_keeps; assumption.
Qed.

Lemma strip_keeps_comma (s : str) : comma ∈ s -> comma ∈ strip s.
Proof. apply strip_by_keeps. reflexivity. Qed.

(** ** No float is written with a comma *)


Lemma is_digit_plain (c : N) : is_digit c = true -> plain c.
Proof.
  unfold is_digit, plain, comma, question_mark. intros H.
  apply andb_true_iff in H as [H1 H2].
  apply N.leb_le in H1. apply N.leb_le in H2. lia.
Qed.

Lemma span_digits_spec (s ds r : str) :
  span_digits s = (ds, r) -> s = ds ++ r /\ Forall plain ds.
Proof.
  revert ds r. induction s as [|c s IH]; intros ds r H; simpl in H.
  - inversion H. split; [reflexivity|constructor].
  - destruct (is_digit c) eqn:E.
    + destruct (span_digits s) as [ds' r'] eqn:E'. inversion H; subst.
      destruct (IH _ _ eq_refl) as [-> Hf]. split; [reflexivity|].
      constructor; [apply is_digit_plain; assumption|assumption].
    + inversion H. split; [reflexivity|constructor].
Qed.

Lemma sign_of_spec (s s1 : str) (neg : bool) :
  sign_of s = (neg, s1) -> Forall plain s1 -> Forall plain s.
Proof.
  destruct s as [|c s']; simpl; intros H Hp.
  - inversion H; subst. assumption.
  - destruct (N.eqb_spec c 45) as [->|].
    { inversion H; subst. constructor; [|assumption]. split; discriminate. }
    destruct (N.eqb_spec c 43) as [->|].
    { inversion H; subst. constructor; [|assumption]. split; discriminate. }
    inversion H; subst. assumption.
Qed.

Lemma fraction_of_spec (s fp r : str) :
  fraction_of s = (fp, r) -> Forall plain r -> Forall plain s.
Proof.
  destruct s as [|c s']; simpl; intros H Hp.
  - inversion H; subst. assumption.
  - destruct (N.eqb_spec c 46) as [->|].
    + apply span_digits_spec in H as [-> Hd]. constructor; [split; discriminate|].
      apply Forall_app. auto.
    + inversion H; subst. assumption.
Qed.

Lemma parse_exponent_plain (s : str) (e : Z) :
  parse_exponent s = Some e -> Forall plain s.
Proof.
  destruct s as [|c s']; simpl; intros H; [constructor|].
  destruct ((c =? 101) || (c =? 69)) eqn:E; [|discriminate].
  assert (Hc : plain c).
  { apply orb_true_iff in E as [E|E]; apply N.eqb_eq in E; subst; split; discriminate. }
  constructor; [assumption|].
  destruct (sign_of s') as [neg s''] eqn:Es.
  destruct (span_digits s'') as [ds r] eqn:Ed.
  destruct ds as [|d ds]; [discriminate|]. destruct r; [|discriminate].
  apply span_digits_spec in Ed as [-> Hd]. rewrite app_nil_r in Es.
  eapply sign_of_spec; eassumption.
Qed.

Lemma lower_plain (c : N) : plain (lower c) -> plain c.
Proof.
  unfold lower, plain, comma, question_mark.
  destruct ((65 <=? c) && (c <=? 90)) eqn:E; [|tauto].
  apply andb_true_iff in E as [H1 H2].
  apply N.leb_le in H1. apply N.leb_le in H2. lia.
Qed.

Lemma parse_inf_nan_plain (neg : bool) (s : str) (x : float) :
  parse_inf_nan neg s = Some x -> Forall plain s.
Proof.
  unfold parse_inf_nan. intros H.
  assert (Hl : Forall plain (map lower s)).
  { destruct (decide (map lower s = py "inf" \/ map lower s = py "infinity"))
      as [[->| ->]|_].
    - repeat constructor; discriminate.
    - repeat constructor; discriminate.
    - destruct (decide (map lower s = py "nan")) as [->|]; [|discriminate].
      repeat constructor; discriminate. }
  clear H. induction s as [|c s IH]; [constructor|].
  inversion Hl; subst. constructor; [apply lower_plain; assumption|auto].
Qed.

Lemma parse_float_literal_plain (s : str) (x : float) :
  parse_float_literal s = Some x -> Forall plain s.
Proof.
  unfold parse_float_literal. intros H.
  destruct (sign_of s) as [neg s1] eqn:Es.
  destruct (span_digits s1) as [ip s2] eqn:Ei.
  destruct (fraction_of s2) as [fp s3] eqn:Ef.
  apply (sign_of_spec _ _ _ Es).
  destruct (ip ++ fp) as [|d ds] eqn:Ed.
  - eapply parse_inf_nan_plain; eassumption.
  - destruct (parse_exponent s3) as [e|] eqn:Ee; [|discriminate].
    apply span_digits_spec in Ei as [-> Hi]. apply Forall_app. split; [assumption|].
    apply (fraction_of_spec _ _ _ Ef). eapply parse_exponent_plain; eassumption.
Qed.

Lemma remove_underscores_keeps (c prev : N) (s t : str) :
  c <> underscore -> remove_underscores prev s = Some t -> c ∈ s -> c ∈ t.
Proof.
  intros Hc. revert prev t. induction s as [|d s IH]; intros prev t H Hin.
  - inversion Hin.
  - simpl in H. destruct (N.eqb_spec d underscore) as [->|Hd].
    + destruct (is_digit prev); [|discriminate].
      apply elem_of_cons in Hin as [Hin|Hin]; [congruence|eauto].
    + destruct ((prev =? underscore) && negb (is_digit d)); [discriminate|].
      destruct (remove_underscores d s) as [t'|] eqn:E; [|discriminate].
      inversion H; subst.
      apply elem_of_cons in Hin as [->|Hin]; [left|right; eauto].
Qed.

Lemma transform_keeps_comma (s : str) :
  comma ∈ s -> comma ∈ transform s \/ question_mark ∈ transform s.
Proof.
  induction s as [|c s IH]; intros H; [inversion H|]. simpl.
  destruct (c <? 127) eqn:E.
  - apply elem_of_cons in H as [<-|H]; [left; left|].
    destruct (IH H); [left|right]; right; assumption.
  - assert (c <> comma) by (apply N.ltb_ge in E; unfold comma; lia).
    apply elem_of_cons in H as [H|H]; [congruence|].
    destruct (isspace c).
    { destruct (IH H); [left|right]; right; assumption. }
    destruct (todecimal c).
    { destruct (IH H); [left|right]; right; assumption. }
    right. left.
Qed.

Lemma to_ascii_keeps_comma (s : str) :
  comma ∈ s -> comma ∈ to_ascii s \/ question_mark ∈ to_ascii s.
Proof.
  unfold to_ascii. destruct (forallb _ s); [auto|apply transform_keeps_comma].
Qed.

(** [float] rejects every text with a comma. *)
Lemma py_float_without_comma (s : str) (x : float) :
  py_float s = Some x -> comma ∉ s.
Proof.
  unfold py_float. intros H Hin.
  destruct (remove_underscores 0 (to_ascii s)) as [t|] eqn:Et; [|discriminate].
  apply parse_float_literal_plain in H.
  assert (Hbad : exists c, c ∈ strip_by is_ascii_space t /\ ~ plain c).
  { destruct (to_ascii_keeps_comma s Hin) as [Hc|Hc].
    - exists comma. split; [|unfold plain; tauto].
      apply strip_by_keeps; [reflexivity|].
      eapply remove_underscores_keeps; [discriminate|eassumption|assumption].
    - exists question_mark. split; [|unfold plain; tauto].
      apply strip_by_keeps; [reflexivity|].
      eapply remove_underscores_keeps; [discriminate|eassumption|assumption]. }
  destruct Hbad as (c & Hc & Hn). apply Hn.
  rewrite Forall_forall in H. apply H. assumption.
Qed.
(** ** The record store *)



Lemma set_user_state_run (chat_id : str) (st : option str) (w : World) :
  set_user_state chat_id st w =
    let us := <[chat_id := state_set st (users w !! chat_id)]> (users w) in
    (inr tt, {| users := us; next_step := next_step w |}, [Save us]).
Proof.
  unfold set_user_state. unfold_monad.
  destruct (users w !! chat_id) as [u|] eqn:E; simpl.
  - rewrite E. reflexivity.
  - rewrite lookup_insert_eq. simpl. rewrite insert_insert_eq. reflexivity.
Qed.



Lemma check_daily_limit_run (chat_id today : str) (w : World) (u : User) :
  users w !! chat_id = Some u ->
  check_daily_limit chat_id today w = (inr tt, w, limit_warning chat_id today u).
Proof.
  intros E. unfold check_daily_limit, limit_warning. unfold_monad. rewrite E.
  destruct (fgt (daily_limit u) fzero && fgt _ (daily_limit u)); reflexivity.
Qed.


Lemma process_expense_accept (m : Message) (date today : str) (w : World)
    (p : str * float) (u : User) :
  parse_expense (text m) = Some p ->
  users w !! str_of_int (chat m) = Some u ->
  let chat_id := str_of_int (chat m) in
  let e := {| category := fst p; amount := snd p; date := date |} in
  let us1 := <[chat_id := expense_added e u]> (users w) in
  let us2 := <[chat_id := state_set None (Some (expense_added e u))]> (users w) in
  process_expense m date today w =
    (inr tt, {| users := us2; next_step := next_step w |},
     Save us1 :: limit_warning chat_id today (expense_added e u)
       ++ [Send chat_id ExpenseAdded (Some main_menu); Save us2]).
Proof.
  intros Hp Hu. unfold process_expense. set (chat_id := str_of_int (chat m)) in *.
  unfold_monad. rewrite Hp. simpl. rewrite Hu. simpl.
  rewrite (check_daily_limit_run _ _ _ (expense_added
    {| category := fst p; amount := snd p; date := date |} u))
    by (simpl; apply lookup_insert_eq).
  rewrite set_user_state_run. simpl.
  rewrite lookup_insert_eq, insert_insert_eq. simpl.
  reflexivity.
Qed.

Lemma process_expense_reject (m : Message) (date today : str) (w : World) :
  parse_expense (text m) = None ->
  process_expense m date today w =
    (inr tt, w, [Send (str_of_int (chat m)) ExpenseFormatError None]).
Proof.
  intros Hp. unfold process_expense. unfold_monad. rewrite Hp. reflexivity.
Qed.

Lemma process_daily_limit_accept (m : Message) (w : World) (l : float) (u : User) :
  py_float (strip (text m)) = Some l ->
  users w !! str_of_int (chat m) = Some u ->
  let chat_id := str_of_int (chat m) in
  let us1 := <[chat_id := with_daily_limit l u]> (users w) in
  let us2 := <[chat_id := state_set None (Some (with_daily_limit l u))]> (users w) in
  process_daily_limit m w =
    (inr tt, {| users := us2; next_step := next_step w |},
     [Save us1; Send chat_id (DailyLimitSet l) (Some main_menu); Save us2]).
Proof.
  intros Hp Hu. unfold process_daily_limit. set (chat_id := str_of_int (chat m)) in *.
  unfold_monad. rewrite Hp. simpl. rewrite Hu. simpl.
  rewrite lookup_insert_eq. simpl.
  rewrite set_user_state_run. simpl.
  rewrite lookup_insert_eq, insert_insert_eq. reflexivity.
Qed.

Lemma process_daily_limit_reject (m : Message) (w : World) :
  py_float (strip (text m)) = None ->
  process_daily_limit m w =
    (inr tt, w, [Send (str_of_int (chat m)) DailyLimitError None]).
Proof.
  intros Hp. unfold process_daily_limit. unfold_monad. rewrite Hp. reflexivity.
Qed.

Lemma process_delete_expense_accept (m : Message) (w : World) (i : Z)
    (u : User) (deleted : Expense) :
  py_int (strip (text m)) = Some i ->
  users w !! str_of_int (chat m) = Some u ->
  expenses u !! Z.to_nat (i - 1) = Some deleted ->
  (1 <= i)%Z ->
  let chat_id := str_of_int (chat m) in
  let u1 := with_expenses (delete (Z.to_nat (i - 1)) (expenses u)) u in
  let us1 := <[chat_id := u1]> (users w) in
  let us2 := <[chat_id := state_set None (Some u1)]> (users w) in
  process_delete_expense m w =
    (inr tt, {| users := us2; next_step := next_step w |},
     [Save us1;
      Send chat_id (ExpenseDeleted (category deleted) (amount deleted)) (Some main_menu);
      Save us2]).
Proof.
  intros Hp Hu Hd Hi. unfold process_delete_expense.
  set (chat_id := str_of_int (chat m)) in *.
  unfold_monad. rewrite Hp. simpl. rewrite Hu. simpl.
  assert (Hlt : (Z.to_nat (i - 1) < length (expenses u))%nat)
    by (apply lookup_lt_is_Some; eauto).
  replace ((0 <=? i - 1)%Z) with true by (symmetry; apply Z.leb_le; lia).
  replace ((i - 1 <? Z.of_nat (length (expenses u)))%Z) with true
    by (symmetry; apply Z.ltb_lt; lia).
  simpl. rewrite Hd. simpl.
  rewrite set_user_state_run. simpl.
  rewrite lookup_insert_eq, insert_insert_eq. reflexivity.
Qed.

Lemma process_delete_expense_out_of_range (m : Message) (w : World) (i : Z)
    (u : User) :
  py_int (strip (text m)) = Some i ->
  users w !! str_of_int (chat m) = Some u ->
  (i < 1 \/ Z.of_nat (length (expenses u)) < i)%Z ->
  process_delete_expense m w =
    (inr tt, w, [Send (str_of_int (chat m)) InvalidNumber None]).
Proof.
  intros Hp Hu Hi. unfold process_delete_expense. unfold_monad.
  rewrite Hp. simpl. rewrite Hu. simpl.
  destruct (0 <=? i - 1)%Z eqn:E1; simpl; [|reflexivity].
  destruct (i - 1 <? Z.of_nat (length (expenses u)))%Z eqn:E2; [|reflexivity].
  apply Z.leb_le in E1. apply Z.ltb_lt in E2. lia.
Qed.

Lemma process_delete_expense_not_int (m : Message) (w : World) :
  py_int (strip (text m)) = None ->
  process_delete_expense m w =
    (inr tt, w, [Send (str_of_int (chat m)) EnterNumber None]).
Proof.
  intros Hp. unfold process_delete_expense. unfold_monad. rewrite Hp. reflexivity.
Qed.

(** ** Reading an expense message *)

Lemma split_two (sep : N) (s p q : str) :
  split sep s = [p; q] -> s = p ++ sep :: q /\ (sep ∉ p) /\ (sep ∉ q).
Proof.
  intros H. destruct (decide (sep ∈ s)) as [Hin|Hout].
  - destruct (first_separator sep s Hin) as (l & r & -> & Hl).
    rewrite split_at_first in H by assumption.
    destruct (decide (sep ∈ r)) as [Hr|Hr].
    + destruct (split_with sep r Hr) as (a & b & ps & E). rewrite E in H. discriminate.
    + rewrite split_without in H by assumption. inversion H; subst. auto.
  - rewrite split_without in H by assumption. discriminate.
Qed.

Lemma one_separator (sep : N) (l r l' r' : str) :
  l ++ sep :: r = l' ++ sep :: r' -> sep ∉ l' -> sep ∉ r' -> l = l' /\ r = r'.
Proof.
  revert l'. induction l as [|c l IH]; intros [|c' l'] H Hl Hr; simpl in H.
  - inversion H. auto.
  - inversion H; subst. exfalso. apply Hl. left.
  - inversion H; subst. exfalso. apply Hr.
    apply elem_of_app. right. left.
  - inversion H; subst. apply not_elem_of_cons in Hl as [_ Hl].
    destruct (IH _ H2 Hl Hr) as [-> ->]. auto.
Qed.

Lemma parse_expense_accepts (l r : str) (a : float) :
  comma ∉ l -> py_float (strip r) = Some a ->
  parse_expense (l ++ comma :: r) = Some (strip l, a).
Proof.
  intros Hl Ha. unfold parse_expense.
  assert (Hr : comma ∉ r).
  { intros Hin. apply (py_float_without_comma _ _ Ha). apply strip_keeps_comma, Hin. }
  rewrite split_at_first, split_without by assumption. rewrite Ha. reflexivity.
Qed.

Lemma parse_expense_inv (text category : str) (a : float) :
  parse_expense text = Some (category, a) ->
  exists l r, text = l ++ comma :: r /\ (comma ∉ l) /\ (comma ∉ r) /\
    category = strip l /\ py_float (strip r) = Some a.
Proof.
  unfold parse_expense. intros H.
  destruct (split comma text) as [|p [|q [|x ps]]] eqn:E; try discriminate.
  destruct (py_float (strip q)) as [a'|] eqn:Ea; [|discriminate].
  inversion H; subst. apply split_two in E as (-> & Hp & Hq).
  exists p, q. auto.
Qed.

Lemma parse_expense_refuses (text : str) :
  comma ∉ text \/ (exists l r, text = l ++ comma :: r /\ py_float (strip r) = None) ->
  parse_expense text = None.
Proof.
  intros H. destruct (parse_expense text) as [[c a]|] eqn:E; [|reflexivity].
  apply parse_expense_inv in E as (l' & r' & -> & Hl & Hr & _ & Ha).
  destruct H as [H|(l & r & H & Hn)].
  - exfalso. apply H. apply elem_of_app. right. left.
  - symmetry in H. apply one_separator in H as [-> ->]; [congruence|assumption..].
Qed.

(** C9 — The program reads an expense message exactly as the reference
    reading does, which cuts the text at its first comma only into two
    parts, takes the left part stripped as the category and the right part
    stripped and converted by [float] as the amount, and fails when there
    is no comma or the right part is no number: the two give the same
    outcome, a value or a failure, on every text. *)
Theorem parse_expense_refines_spec (text : str) :
  parse_expense text = parse_expense_spec text.
Proof.
  unfold parse_expense, parse_expense_spec.
  destruct (decide (comma ∈ text)) as [Hin|Hout].
  - destruct (first_separator comma text Hin) as (l & r & -> & Hl).
    rewrite split_at_first, split_first_at_first by assumption.
    destruct (decide (comma ∈ r)) as [Hr|Hr].
    + destruct (split_with comma r Hr) as (p & q & ps & ->).
      destruct (py_float (strip r)) as [a|] eqn:Ea; [|reflexivity].
      exfalso. apply (py_float_without_comma _ _ Ea). apply strip_keeps_comma, Hr.
    + rewrite split_without by assumption. reflexivity.
  - rewrite split_without, split_first_without by assumption. reflexivity.
Qed.

(** ** The handlers of the next message *)

(** C1 — For a user with a record in the store (whatever its state, so in
    particular in the state add_expense) and a text whose part after the first
    comma, stripped, is a number for [float], [process_expense] appends
    one expense to the end of the user's list, with the left part
    stripped as category, the parsed float as amount and the day read from
    the clock as date; the list is one longer, the state becomes [None]
    and the handler returns normally. *)
Theorem process_expense_appends (w : World) (m : Message) (date today : str)
    (l r : str) (a : float) (u : User) :
  text m = l ++ comma :: r ->
  comma ∉ l ->
  py_float (strip r) = Some a ->
  users w !! str_of_int (chat m) = Some u ->
  exists (w' : World) (effs : list Effect) (u' : User),
    process_expense m date today w = (inr tt, w', effs) /\
    users w' = <[str_of_int (chat m) := u']> (users w) /\
    expenses u' =
      expenses u ++ [{| category := strip l; amount := a; date := date |}] /\
    length (expenses u') = S (length (expenses u)) /\
    daily_limit u' = daily_limit u /\
    state u' = None.
Proof.
  intros Ht Hl Ha Hu.
  pose proof (parse_expense_accepts l r a Hl Ha) as Hp. rewrite <- Ht in Hp.
  rewrite (process_expense_accept m date today w _ u Hp Hu). simpl.
  eexists _, _, _. split; [reflexivity|]. split; [reflexivity|]. simpl.
  split; [reflexivity|]. split; [|split; reflexivity].
  rewrite length_app. simpl. lia.
Qed.

(** C4 — On a text without a comma, or one whose part after a comma is no
    number for [float], [process_expense] returns normally, leaves the
    whole state as it was (so no expense is added and the stored state of
    the user stays what it was, add_expense included), writes nothing to the
    data file, and sends the format error as its only effect. *)
Theorem process_expense_rejects (w : World) (m : Message) (date today : str) :
  comma ∉ text m \/
    (exists l r, text m = l ++ comma :: r /\ py_float (strip r) = None) ->
  process_expense m date today w =
    (inr tt, w, [Send (str_of_int (chat m)) ExpenseFormatError None]).
Proof.
  intros H. apply process_expense_reject, parse_expense_refuses, H.
Qed.

(** C3 — For a user with n expenses and a text that [int] reads as a
    number i with 1 <= i <= n, [process_delete_expense] removes the
    expense at position i of the list as it is displayed, which has index
    i - 1, and keeps the others in their order; the list is one shorter,
    the reply names the category and the amount of the removed expense,
    and the state becomes [None]. *)
Theorem process_delete_expense_removes (w : World) (m : Message) (i : Z) (u : User) :
  py_int (strip (text m)) = Some i ->
  users w !! str_of_int (chat m) = Some u ->
  (1 <= i <= Z.of_nat (length (expenses u)))%Z ->
  exists (deleted : Expense) (w' : World) (u' : User) (file : gmap str User),
    expenses u !! (Z.to_nat i - 1)%nat = Some deleted /\
    process_delete_expense m w =
      (inr tt, w',
       [Save file;
        Send (str_of_int (chat m))
          (ExpenseDeleted (category deleted) (amount deleted)) (Some main_menu);
        Save (users w')]) /\
    users w' = <[str_of_int (chat m) := u']> (users w) /\
    expenses u' =
      take (Z.to_nat i - 1) (expenses u) ++ drop (Z.to_nat i) (expenses u) /\
    S (length (expenses u')) = length (expenses u) /\
    daily_limit u' = daily_limit u /\
    state u' = None.
Proof.
  intros Hp Hu Hi.
  assert (Hn : Z.to_nat (i - 1) = (Z.to_nat i - 1)%nat) by lia.
  destruct (lookup_lt_is_Some_2 (expenses u) (Z.to_nat (i - 1))) as [d Hd]; [lia|].
  rewrite (process_delete_expense_accept m w i u d Hp Hu Hd) by lia. simpl.
  exists d. eexists {| users := _; next_step := _ |}, _, _. rewrite <- Hn.
  split; [assumption|]. split; [reflexivity|]. split; [reflexivity|]. simpl.
  split; [|split; [|split; reflexivity]].
  - rewrite delete_take_drop. f_equal. f_equal. lia.
  - rewrite length_delete by eauto.
    apply lookup_lt_Some in Hd. lia.
Qed.

(** C5 — For a user with a record in the store, on a text that [int] does
    not read, or reads as a number outside 1..n for the n expenses of the
    user, [process_delete_expense] returns normally, leaves the whole
    state as it was (nothing removed, the stored state of the user still
    delete_expense if it was), writes nothing to the data file, and sends one
    error: the invalid number for a number out of range, the request for a
    number otherwise. *)
Theorem process_delete_expense_rejects (w : World) (m : Message) (u : User) :
  users w !! str_of_int (chat m) = Some u ->
  (py_int (strip (text m)) = None \/
   exists i, py_int (strip (text m)) = Some i /\
     (i < 1 \/ Z.of_nat (length (expenses u)) < i)%Z) ->
  process_delete_expense m w =
    (inr tt, w,
     [Send (str_of_int (chat m))
        (match py_int (strip (text m)) with
         | Some _ => InvalidNumber
         | None => EnterNumber
         end) None]).
Proof.
  intros Hu [Hn|(i & Hi & Hr)].
  - rewrite Hn. apply process_delete_expense_not_int, Hn.
  - rewrite Hi. eapply process_delete_expense_out_of_range; eassumption.
Qed.

(** C10 — [set_user_state] returns normally and changes the record of the
    given user only: an existing record keeps its expenses and its limit
    and gets the new state, a missing one is created with no expenses, the
    limit zero and the new state; every other record is as before. *)
Theorem set_user_state_frame (w : World) (chat_id : str) (st : option str) :
  exists us : gmap str User,
    set_user_state chat_id st w =
      (inr tt, {| users := us; next_step := next_step w |}, [Save us]) /\
    forall k : str,
      us !! k =
        if decide (k = chat_id) then
          Some (match users w !! chat_id with
                | Some u =>
                    {| expenses := expenses u; daily_limit := daily_limit u;
                       state := st |}
                | None =>
                    {| expenses := []; daily_limit := fzero; state := st |}
                end)
        else users w !! k.
Proof.
  rewrite set_user_state_run. simpl. eexists. split; [reflexivity|].
  intros k. destruct (decide (k = chat_id)) as [->|Hne].
  - rewrite lookup_insert_eq. reflexivity.
  - rewrite lookup_insert_ne by congruence. reflexivity.
Qed.

(** ** The daily limit *)

Lemma SFcompare_antisym (x y : float) :
  SFcompare y x = option_map CompOpp (SFcompare x y).
Proof.
  destruct x as [sx|sx| |sx mx ex], y as [sy|sy| |sy my ey]; simpl;
    try reflexivity;
    try (destruct sx; reflexivity); try (destruct sy; reflexivity);
    try (destruct sx, sy; reflexivity).
  pose proof (Pos.compare_cont_antisym mx my Eq) as A. simpl in A.
  destruct sx, sy; simpl; try reflexivity;
    rewrite (Z.compare_antisym ex ey); destruct (ex ?= ey)%Z eqn:E; simpl;
    try reflexivity;
    rewrite <- A; destruct (Pos.compare_cont Eq mx my); reflexivity.
Qed.

(** What is at most the limit does not exceed it. *)
Lemma fgt_false_of_le (x y : float) : SFleb x y = true -> fgt x y = false.
Proof.
  unfold fgt, SFleb, SFltb. rewrite (SFcompare_antisym x y).
  destruct (SFcompare x y) as [[]|]; simpl; congruence.
Qed.

(** No warning is due when the limit is zero, or when what was spent
    today is at most the limit. *)
Lemma limit_warning_none (chat_id today : str) (u : User) :
  daily_limit u = fzero \/
    SFleb (py_sum (amounts_on today (expenses u))) (daily_limit u) = true ->
  limit_warning chat_id today u = [].
Proof.
  unfold limit_warning. intros [H|H].
  - rewrite H. reflexivity.
  - rewrite (fgt_false_of_le _ _ H), andb_false_r. reflexivity.
Qed.

Lemma warnings_limit_warning (chat_id today : str) (u : User) :
  warnings (limit_warning chat_id today u) = limit_warning chat_id today u.
Proof.
  unfold limit_warning.
  destruct (fgt (daily_limit u) fzero && fgt _ (daily_limit u)); reflexivity.
Qed.

Lemma process_expense_no_user (m : Message) (date today : str) (w : World)
    (p : str * float) :
  parse_expense (text m) = Some p ->
  users w !! str_of_int (chat m) = None ->
  process_expense m date today w = (inl KeyError, w, []).
Proof.
  intros Hp Hu. unfold process_expense. unfold_monad. rewrite Hp. simpl.
  rewrite Hu. reflexivity.
Qed.

Lemma process_daily_limit_no_user (m : Message) (w : World) (l : float) :
  py_float (strip (text m)) = Some l ->
  users w !! str_of_int (chat m) = None ->
  process_daily_limit m w = (inl KeyError, w, []).
Proof.
  intros Hp Hu. unfold process_daily_limit. unfold_monad. rewrite Hp. simpl.
  rewrite Hu. reflexivity.
Qed.

Lemma process_delete_expense_no_user (m : Message) (w : World) (i : Z) :
  py_int (strip (text m)) = Some i ->
  users w !! str_of_int (chat m) = None ->
  process_delete_expense m w = (inl KeyError, w, []).
Proof.
  intros Hp Hu. unfold process_delete_expense. unfold_monad. rewrite Hp. simpl.
  rewrite Hu. reflexivity.
Qed.

(** What the handlers of the buttons and of the start command do. *)

Lemma send_welcome_run (m : Message) (w : World) :
  send_welcome m w =
    let chat_id := str_of_int (chat m) in
    let us := <[chat_id := state_set None (users w !! chat_id)]> (users w) in
    (inr tt, {| users := us; next_step := next_step w |},
     [Save us; Send chat_id Welcome (Some main_menu)]).
Proof.
  unfold send_welcome. unfold_monad. rewrite set_user_state_run. reflexivity.
Qed.

Lemma add_expense_run (m : Message) (w : World) :
  add_expense m w =
    let chat_id := str_of_int (chat m) in
    let us := <[chat_id := state_set state_add_expense (users w !! chat_id)]> (users w) in
    (inr tt,
     {| users := us;
        next_step :=
          <[chat m := default [] (next_step w !! chat m) ++ [ProcessExpense]]>
            (next_step w) |},
     [Save us; Send chat_id AskExpense None]).
Proof.
  unfold add_expense, register_next_step_handler. unfold_monad.
  rewrite set_user_state_run. reflexivity.
Qed.

Lemma set_daily_limit_run (m : Message) (w : World) :
  set_daily_limit m w =
    let chat_id := str_of_int (chat m) in
    let us := <[chat_id := state_set state_set_daily_limit (users w !! chat_id)]> (users w) in
    (inr tt,
     {| users := us;
        next_step :=
          <[chat m := default [] (next_step w !! chat m) ++ [ProcessDailyLimit]]>
            (next_step w) |},
     [Save us; Send chat_id AskDailyLimit None]).
Proof.
  unfold set_daily_limit, register_next_step_handler. unfold_monad.
  rewrite set_user_state_run. reflexivity.
Qed.

Lemma view_expenses_run (m : Message) (w : World) :
  view_expenses m w =
    let chat_id := str_of_int (chat m) in
    let u := state_set None (users w !! chat_id) in
    let us := <[chat_id := u]> (users w) in
    (inr tt, {| users := us; next_step := next_step w |},
     [Save us;
      Send chat_id
        (match expenses u with
         | [] => NoExpensesYet
         | es => ExpenseReport es
         end) None]).
Proof.
  unfold view_expenses. unfold_monad. rewrite set_user_state_run. simpl.
  rewrite lookup_insert_eq.
  destruct (expenses (state_set None (users w !! str_of_int (chat m))));
    reflexivity.
Qed.

Lemma delete_expense_run (m : Message) (w : World) :
  delete_expense m w =
    let chat_id := str_of_int (chat m) in
    let u := state_set state_delete_expense (users w !! chat_id) in
    let us := <[chat_id := u]> (users w) in
    match expenses u with
    | [] =>
        (inr tt, {| users := us; next_step := next_step w |},
         [Save us; Send chat_id NothingToDelete None])
    | es =>
        (inr tt,
         {| users := us;
            next_step :=
              <[chat m := default [] (next_step w !! chat m) ++ [ProcessDeleteExpense]]>
                (next_step w) |},
         [Save us; Send chat_id (AskDeleteIndex es) None])
    end.
Proof.
  unfold delete_expense, register_next_step_handler. unfold_monad.
  rewrite set_user_state_run. simpl. rewrite lookup_insert_eq.
  destruct (expenses (state_set state_delete_expense (users w !! str_of_int (chat m))));
    reflexivity.
Qed.

Lemma message_handler_no_warning (h : MessageHandler) (m : Message) (w : World) :
  warnings (snd (run_message_handler h m w)) = [].
Proof.
  destruct h; simpl.
  - rewrite send_welcome_run. reflexivity.
  - rewrite add_expense_run. reflexivity.
  - rewrite set_daily_limit_run. reflexivity.
  - rewrite view_expenses_run. simpl.
    destruct (expenses (state_set None (users w !! str_of_int (chat m))));
      reflexivity.
  - rewrite delete_expense_run. simpl.
    destruct (expenses (state_set state_delete_expense (users w !! str_of_int (chat m))));
      reflexivity.
Qed.

Lemma process_daily_limit_no_warning (m : Message) (w : World) :
  warnings (snd (process_daily_limit m w)) = [].
Proof.
  destruct (py_float (strip (text m))) as [l|] eqn:Hp.
  - destruct (users w !! str_of_int (chat m)) as [u|] eqn:Hu.
    + rewrite (process_daily_limit_accept m w l u Hp Hu). reflexivity.
    + rewrite (process_daily_limit_no_user m w l Hp Hu). reflexivity.
  - rewrite (process_daily_limit_reject m w Hp). reflexivity.
Qed.

Lemma process_delete_expense_no_warning (m : Message) (w : World) :
  warnings (snd (process_delete_expense m w)) = [].
Proof.
  destruct (py_int (strip (text m))) as [i|] eqn:Hp.
  - destruct (users w !! str_of_int (chat m)) as [u|] eqn:Hu.
    + destruct (decide (1 <= i <= Z.of_nat (length (expenses u)))%Z) as [Hi|Hi].
      * destruct (lookup_lt_is_Some_2 (expenses u) (Z.to_nat (i - 1))) as [d Hd];
          [lia|].
        rewrite (process_delete_expense_accept m w i u d Hp Hu Hd) by lia.
        reflexivity.
      * rewrite (process_delete_expense_out_of_range m w i u Hp Hu) by lia.
        reflexivity.
    + rewrite (process_delete_expense_no_user m w i Hp Hu). reflexivity.
  - rewrite (process_delete_expense_not_int m w Hp). reflexivity.
Qed.

(** C2 — The limit warning is sent by the handler that records an expense,
    when it records one, and by no other handler and in no other case.
    After an expense is recorded, exactly one warning is sent if the limit
    of the user is greater than 0 and the sum of the amounts of the
    expenses dated today, the new one included, is greater than the limit,
    and its text holds the limit and that sum; otherwise none is sent. *)
Theorem limit_check_after_insertion (h : Handler) (w : World) (m : Message)
    (date today : str) :
  warnings (snd (run_handler h m date today w)) =
    match h, parse_expense (text m), users w !! str_of_int (chat m) with
    | OnNextStep ProcessExpense, Some (category, a), Some u =>
        let limit := daily_limit u in
        let spent :=
          py_sum (amounts_on today
            (expenses u ++ [{| category := category; amount := a; date := date |}])) in
        if fgt limit fzero && fgt spent limit
        then [Send (str_of_int (chat m)) (LimitExceeded limit spent) None]
        else []
    | _, _, _ => []
    end.
Proof.
  destruct h as [h|[]]; simpl.
  - apply message_handler_no_warning.
  - destruct (parse_expense (text m)) as [[c a]|] eqn:Hp.
    + destruct (users w !! str_of_int (chat m)) as [u|] eqn:Hu.
      * rewrite (process_expense_accept m date today w _ u Hp Hu). simpl.
        unfold warnings. rewrite List.filter_app. simpl. rewrite app_nil_r.
        apply warnings_limit_warning.
      * rewrite (process_expense_no_user m date today w _ Hp Hu). reflexivity.
    + rewrite (process_expense_reject m date today w Hp). reflexivity.
  - rewrite process_daily_limit_no_warning.
    destruct (parse_expense (text m)) as [[]|]; reflexivity.
  - rewrite process_delete_expense_no_warning.
    destruct (parse_expense (text m)) as [[]|]; reflexivity.
Qed.

(** ** Dispatch *)

Lemma process_new_message_idle (m : Message) (date today : str) (w : World) :
  default [] (next_step w !! chat m) = [] ->
  let w0 := {| users := users w; next_step := delete (chat m) (next_step w) |} in
  process_new_message m date today w =
    match message_handler (text m) with
    | Some h => run_message_handler h m w0
    | None => (inr tt, w0, [])
    end.
Proof.
  intros H. unfold process_new_message, take_next_step_handlers, bind. simpl.
  rewrite H. destruct (message_handler (text m)) as [h|]; [|reflexivity].
  destruct (run_message_handler h m _) as [[r w'] o]. reflexivity.
Qed.

Lemma process_new_message_waiting (m : Message) (date today : str) (w : World)
    (h : StepHandler) :
  next_step w !! chat m = Some [h] ->
  forall (w' : World) (o : list Effect),
    run_step_handler h m date today
      {| users := users w; next_step := delete (chat m) (next_step w) |} =
      (inr tt, w', o) ->
    process_new_message m date today w = (inr tt, w', o).
Proof.
  intros H w' o Hr. unfold process_new_message, take_next_step_handlers, bind.
  simpl. rewrite H. simpl. unfold bind. rewrite Hr. simpl.
  rewrite app_nil_r. reflexivity.
Qed.

Lemma step_handler_rejects (h : StepHandler) (m : Message) (date today : str)
    (w : World) (u : User) :
  users w !! str_of_int (chat m) = Some u ->
  rejects h u (text m) = true ->
  run_step_handler h m date today w =
    (inr tt, w, [Send (str_of_int (chat m)) (rejection h (text m)) None]).
Proof.
  intros Hu Hr. destruct h; simpl in *.
  - destruct (parse_expense (text m)) eqn:E; [discriminate|].
    apply process_expense_reject, E.
  - destruct (py_float (strip (text m))) eqn:E; [discriminate|].
    apply process_daily_limit_reject, E.
  - destruct (py_int (strip (text m))) as [i|] eqn:E.
    + eapply process_delete_expense_out_of_range; [eassumption..|].
      apply negb_true_iff, andb_false_iff in Hr as [Hr|Hr].
      * apply Z.leb_gt in Hr. lia.
      * apply Z.leb_gt in Hr. lia.
    + apply process_delete_expense_not_int, E.
Qed.

(** C6 — When no step handler waits for the next message of the chat, the
    message /start makes the bot send the welcome with the menu and sets
    the stored state of the user to [None], whatever that state was
    (add_expense, set_daily_limit and delete_expense included) and also
    when the user has no record yet. *)
Theorem start_resets_when_none_waits (w : World) (m : Message) (date today : str) :
  text m = py "/start" ->
  default [] (next_step w !! chat m) = [] ->
  exists u' : User,
    process_new_message m date today w =
      (inr tt,
       {| users := <[str_of_int (chat m) := u']> (users w);
          next_step := delete (chat m) (next_step w) |},
       [Save (<[str_of_int (chat m) := u']> (users w));
        Send (str_of_int (chat m)) Welcome (Some main_menu)]) /\
    state u' = None.
Proof.
  intros Ht Hn. rewrite (process_new_message_idle m date today w Hn). rewrite Ht.
  change (message_handler (py "/start")) with (Some SendWelcome). simpl.
  rewrite send_welcome_run. simpl. eexists. split; [reflexivity|].
  destruct (users w !! str_of_int (chat m)); reflexivity.
Qed.

(** C7 — When a step handler turns a text down, the bot replies with the
    error of that handler and the state is as before, so the stored state
    of the user keeps its value; but the handler, taken out when the
    message came, is not registered again: the next message of the chat
    goes to the handlers of the start command and of the buttons, and to
    no handler when it is neither. *)
Theorem rejection_unregisters (w : World) (m : Message) (date today : str)
    (h : StepHandler) (u : User) :
  next_step w !! chat m = Some [h] ->
  users w !! str_of_int (chat m) = Some u ->
  rejects h u (text m) = true ->
  let w' := {| users := users w; next_step := delete (chat m) (next_step w) |} in
  process_new_message m date today w =
    (inr tt, w', [Send (str_of_int (chat m)) (rejection h (text m)) None]) /\
  forall (m' : Message) (date' today' : str),
    chat m' = chat m ->
    process_new_message m' date' today' w' =
      match message_handler (text m') with
      | Some g => run_message_handler g m' w'
      | None => (inr tt, w', [])
      end.
Proof.
  intros Hn Hu Hr w'. split.
  - apply (process_new_message_waiting m date today w h Hn).
    apply step_handler_rejects with u; assumption.
  - intros m' date' today' Hc.
    rewrite process_new_message_idle.
    + simpl. rewrite Hc, delete_delete_eq. reflexivity.
    + simpl. rewrite Hc, lookup_delete_eq. reflexivity.
Qed.

(** ** The stored limits *)

Section Keeps.
Context {A B : Type}.

Lemma keeps_ret (a : A) (Q : A -> Prop) : Q a -> keeps (ret a) Q.
Proof. intros H w Hw. simpl. auto. Qed.

Lemma keeps_raise (e : Exn) (Q : A -> Prop) : keeps (raise e) Q.
Proof. intros w Hw. simpl. auto. Qed.

Lemma keeps_weaken (c : M A) (Q R : A -> Prop) :
  keeps c Q -> (forall a, Q a -> R a) -> keeps c R.
Proof.
  intros H HQR w Hw. destruct (H w Hw) as [H1 H2]. split; [assumption|].
  destruct (fst (fst (c w))); auto.
Qed.

Lemma keeps_bind (c : M A) (k : A -> M B) (Q : A -> Prop) (R : B -> Prop) :
  keeps c Q -> (forall a, Q a -> keeps (k a) R) -> keeps (bind c k) R.
Proof.
  intros Hc Hk w Hw. unfold bind. specialize (Hc w Hw).
  destruct (c w) as [[[e|a] w1] o1]; simpl in *.
  - tauto.
  - destruct Hc as [H1 H2]. specialize (Hk a H2 w1 H1).
    destruct (k a w1) as [[r w2] o2]. simpl in *. assumption.
Qed.

Lemma keeps_convert (o : option A) (Q : A -> Prop) :
  (forall a, o = Some a -> Q a) -> keeps (convert o) Q.
Proof.
  intros H. destruct o; simpl; [apply keeps_ret; auto|apply keeps_raise].
Qed.
End Keeps.

Lemma keeps_try (body handler : M unit) (Q : unit -> Prop) :
  keeps body Q -> keeps handler Q -> keeps (try_except_ValueError body handler) Q.
Proof.
  intros Hb Hh w Hw. unfold try_except_ValueError. specialize (Hb w Hw).
  destruct (body w) as [[[[]|a] w1] o1]; simpl in *; try assumption.
  destruct Hb as [H1 _]. specialize (Hh w1 H1).
  destruct (handler w1) as [[r w2] o2]. simpl in *. assumption.
Qed.

Lemma keeps_get_user (chat_id : str) :
  keeps (get_user chat_id) (fun u => entered (daily_limit u)).
Proof.
  intros w Hw. unfold get_user. unfold_monad.
  destruct (users w !! chat_id) as [u|] eqn:E; simpl; eauto.
Qed.

Lemma keeps_set_user (chat_id : str) (u : User) :
  entered (daily_limit u) -> keeps (set_user chat_id u) (fun _ => True).
Proof.
  intros Hu w Hw. unfold set_user. unfold_monad. simpl. split; [|exact I].
  intros k v Hk. simpl in Hk.
  destruct (decide (chat_id = k)) as [->|Hne].
  - rewrite lookup_insert_eq in Hk. inversion Hk; subst. assumption.
  - rewrite lookup_insert_ne in Hk by assumption. eauto.
Qed.

Lemma keeps_perform (e : Effect) : keeps (perform e) (fun _ => True).
Proof. intros w Hw. simpl. auto. Qed.

Lemma keeps_save_user_data : keeps save_user_data (fun _ => True).
Proof. intros w Hw. simpl. auto. Qed.

Lemma keeps_send_message (chat_id : str) (t : Text) (k : option Keyboard) :
  keeps (send_message chat_id t k) (fun _ => True).
Proof. apply keeps_perform. Qed.

Lemma keeps_register_next_step_handler (c : Z) (h : StepHandler) :
  keeps (register_next_step_handler c h) (fun _ => True).
Proof. intros w Hw. simpl. auto. Qed.

Lemma keeps_take_next_step_handlers (c : Z) :
  keeps (take_next_step_handlers c) (fun _ => True).
Proof. intros w Hw. simpl. auto. Qed.

Lemma keeps_set_user_state (chat_id : str) (st : option str) :
  keeps (set_user_state chat_id st) (fun _ => True).
Proof.
  intros w Hw. rewrite set_user_state_run. simpl. split; [|exact I].
  intros k v Hk. simpl in Hk.
  destruct (decide (chat_id = k)) as [->|Hne].
  - rewrite lookup_insert_eq in Hk. inversion Hk; subst.
    destruct (users w !! k) as [u|] eqn:E; simpl; [eauto|left; reflexivity].
  - rewrite lookup_insert_ne in Hk by assumption. eauto.
Qed.

Lemma keeps_check_daily_limit (chat_id today : str) :
  keeps (check_daily_limit chat_id today) (fun _ => True).
Proof.
  unfold check_daily_limit. eapply keeps_bind; [apply keeps_get_user|].
  intros u _. simpl.
  destruct (fgt (daily_limit u) fzero && fgt _ (daily_limit u));
    [apply keeps_send_message|apply keeps_ret; exact I].
Qed.

Ltac keeps_seq lemma := eapply keeps_bind; [apply lemma|intros ? ?].

Lemma keeps_process_expense (m : Message) (date today : str) :
  keeps (process_expense m date today) (fun _ => True).
Proof.
  unfold process_expense. apply keeps_try; [|apply keeps_send_message].
  eapply keeps_bind; [apply (keeps_convert _ (fun _ => True)); auto|intros p _].
  keeps_seq keeps_get_user.
  eapply keeps_bind; [apply keeps_set_user; assumption|intros _ _].
  keeps_seq keeps_save_user_data.
  keeps_seq keeps_check_daily_limit.
  keeps_seq keeps_send_message.
  apply keeps_set_user_state.
Qed.

Lemma keeps_process_daily_limit (m : Message) :
  keeps (process_daily_limit m) (fun _ => True).
Proof.
  unfold process_daily_limit. apply keeps_try; [|apply keeps_send_message].
  eapply keeps_bind.
  { apply (keeps_convert _ (fun l => entered l)). intros l Hl. right. eauto. }
  intros l Hl. keeps_seq keeps_get_user.
  eapply keeps_bind; [apply keeps_set_user; assumption|intros _ _].
  keeps_seq keeps_save_user_data.
  keeps_seq keeps_get_user.
  keeps_seq keeps_send_message.
  apply keeps_set_user_state.
Qed.

Lemma keeps_process_delete_expense (m : Message) :
  keeps (process_delete_expense m) (fun _ => True).
Proof.
  unfold process_delete_expense. apply keeps_try; [|apply keeps_send_message].
  eapply keeps_bind; [apply (keeps_convert _ (fun _ => True)); auto|intros n _].
  simpl. keeps_seq keeps_get_user.
  destruct ((0 <=? n - 1)%Z && (n - 1 <? Z.of_nat (length (expenses a)))%Z);
    [|apply keeps_send_message].
  destruct (expenses a !! Z.to_nat (n - 1)) as [d|]; [|apply keeps_raise].
  eapply keeps_bind; [apply keeps_set_user; assumption|intros _ _].
  keeps_seq keeps_save_user_data.
  keeps_seq keeps_send_message.
  apply keeps_set_user_state.
Qed.

Lemma keeps_run_step_handlers (hs : list StepHandler) (m : Message)
    (date today : str) :
  keeps (run_step_handlers hs m date today) (fun _ => True).
Proof.
  induction hs as [|h hs IH]; simpl; [apply keeps_ret; exact I|].
  eapply keeps_bind; [|intros _ _; apply IH].
  destruct h; simpl.
  - apply keeps_process_expense.
  - apply keeps_process_daily_limit.
  - apply keeps_process_delete_expense.
Qed.

Lemma keeps_run_message_handler (h : MessageHandler) (m : Message) :
  keeps (run_message_handler h m) (fun _ => True).
Proof.
  destruct h; simpl.
  - unfold send_welcome. keeps_seq keeps_set_user_state. apply keeps_send_message.
  - unfold add_expense. keeps_seq keeps_set_user_state.
    keeps_seq keeps_send_message. apply keeps_register_next_step_handler.
  - unfold set_daily_limit. keeps_seq keeps_set_user_state.
    keeps_seq keeps_send_message. apply keeps_register_next_step_handler.
  - unfold view_expenses. keeps_seq keeps_set_user_state.
    keeps_seq keeps_get_user.
    destruct (expenses a0); apply keeps_send_message.
  - unfold delete_expense. keeps_seq keeps_set_user_state.
    keeps_seq keeps_get_user.
    destruct (expenses a0); [apply keeps_send_message|].
    keeps_seq keeps_send_message. apply keeps_register_next_step_handler.
Qed.

Lemma keeps_process_new_message (m : Message) (date today : str) :
  keeps (process_new_message m date today) (fun _ => True).
Proof.
  unfold process_new_message. keeps_seq keeps_take_next_step_handlers.
  destruct a as [|h hs].
  - destruct (message_handler (text m));
      [apply keeps_run_message_handler|apply keeps_ret; exact I].
  - apply keeps_run_step_handlers.
Qed.

Lemma reachable_limits_entered (w : World) : reachable w -> limits_entered w.
Proof.
  induction 1 as [|w m date today _ IH].
  - intros k u Hk. simpl in Hk. rewrite lookup_empty in Hk. discriminate.
  - apply (keeps_process_new_message m date today w IH).
Qed.

Lemma reachable_fold (c : Z) (day : str) (ms : list str) (w : World) :
  reachable w ->
  reachable
    (fold_left (fun w t => step w {| chat := c; text := t |} day day) ms w).
Proof.
  revert w. induction ms as [|t ms IH]; intros w Hw; simpl; [assumption|].
  apply IH. constructor. assumption.
Qed.

Lemma reachable_after (c : Z) (day : str) (ms : list str) :
  reachable (after c day ms).
Proof. apply reachable_fold. constructor. Qed.

(** C8 — In every state the bot reaches from a start without a data file,
    the limit of every user is the default zero or the value that [float]
    gives for some text: [process_daily_limit] stores the float it reads
    from the stripped text as it is, with no test of its sign, so a stored
    limit can be negative. *)
Theorem daily_limit_is_entered (w : World) (k : str) (u : User) :
  reachable w ->
  users w !! k = Some u ->
  daily_limit u = fzero \/ exists s : str, py_float s = Some (daily_limit u).
Proof.
  intros Hw Hk. exact (reachable_limits_entered w Hw k u Hk).
Qed.

(** ** The properties on a conversation *)

Lemma process_expense_appends_witness :
  let m := {| chat := 7; text := py "Coffee, 150" |} in
  let u := {| expenses := []; daily_limit := fzero; state := state_add_expense |} in
  (text m = py "Coffee" ++ comma :: py " 150" /\
   (comma ∉ py "Coffee") /\
   py_float (strip (py " 150")) = Some (amount coffee) /\
   users asked_expense !! str_of_int (chat m) = Some u) /\
  exists (w' : World) (effs : list Effect) (u' : User),
    process_expense m a_day a_day asked_expense = (inr tt, w', effs) /\
    users w' = <[str_of_int (chat m) := u']> (users asked_expense) /\
    expenses u' = expenses u ++ [coffee] /\
    length (expenses u') = S (length (expenses u)) /\
    daily_limit u' = daily_limit u /\
    state u' = None.
Proof.
  assert (H1 : comma ∉ py "Coffee") by (refine (bool_decide_unpack _ _); vm_compute; exact I).
  assert (H2 : py_float (strip (py " 150")) = Some (amount coffee))
    by (vm_compute; reflexivity).
  assert (H3 : users asked_expense !! str_of_int 7 =
               Some {| expenses := []; daily_limit := fzero; state := state_add_expense |})
    by (vm_compute; reflexivity).
  split; [repeat split; assumption|].
  exact (process_expense_appends asked_expense
           {| chat := 7; text := py "Coffee, 150" |} a_day a_day
           (py "Coffee") (py " 150") (amount coffee) _ eq_refl H1 H2 H3).
Defined.

Lemma process_expense_rejects_witness :
  let m := {| chat := 7; text := py "Coffee 150" |} in
  (comma ∉ text m) /\
  process_expense m a_day a_day asked_expense =
    (inr tt, asked_expense, [Send (str_of_int 7) ExpenseFormatError None]).
Proof.
  assert (H : comma ∉ py "Coffee 150") by (refine (bool_decide_unpack _ _); vm_compute; exact I).
  split; [exact H|].
  exact (process_expense_rejects asked_expense
           {| chat := 7; text := py "Coffee 150" |} a_day a_day (or_introl H)).
Defined.

Lemma process_delete_expense_removes_witness :
  let m := {| chat := 7; text := py "1" |} in
  let u := {| expenses := [coffee; lunch]; daily_limit := fzero;
              state := state_delete_expense |} in
  (py_int (strip (text m)) = Some 1%Z /\
   users asked_delete_index !! str_of_int (chat m) = Some u /\
   (1 <= 1 <= Z.of_nat (length (expenses u)))%Z) /\
  exists (deleted : Expense) (w' : World) (u' : User) (file : gmap str User),
    expenses u !! (Z.to_nat 1 - 1)%nat = Some deleted /\
    process_delete_expense m asked_delete_index =
      (inr tt, w',
       [Save file;
        Send (str_of_int (chat m))
          (ExpenseDeleted (category deleted) (amount deleted)) (Some main_menu);
        Save (users w')]) /\
    users w' = <[str_of_int (chat m) := u']> (users asked_delete_index) /\
    expenses u' =
      take (Z.to_nat 1 - 1) (expenses u) ++ drop (Z.to_nat 1) (expenses u) /\
    S (length (expenses u')) = length (expenses u) /\
    daily_limit u' = daily_limit u /\
    state u' = None.
Proof.
  assert (H1 : py_int (strip (py "1")) = Some 1%Z) by (vm_compute; reflexivity).
  assert (H2 : users asked_delete_index !! str_of_int 7 =
               Some {| expenses := [coffee; lunch]; daily_limit := fzero;
                       state := state_delete_expense |})
    by (vm_compute; reflexivity).
  assert (H3 : (1 <= 1 <= Z.of_nat (length [coffee; lunch]))%Z) by (simpl; lia).
  split; [repeat split; solve [assumption | apply H3]|].
  exact (process_delete_expense_removes asked_delete_index
           {| chat := 7; text := py "1" |} 1 _ H1 H2 H3).
Defined.

Lemma process_delete_expense_rejects_witness :
  let m := {| chat := 7; text := py "3" |} in
  let u := {| expenses := [coffee; lunch]; daily_limit := fzero;
              state := state_delete_expense |} in
  (users asked_delete_index !! str_of_int (chat m) = Some u /\
   py_int (strip (text m)) = Some 3%Z /\
   (Z.of_nat (length (expenses u)) < 3)%Z) /\
  process_delete_expense m asked_delete_index =
    (inr tt, asked_delete_index,
     [Send (str_of_int (chat m))
        (match py_int (strip (text m)) with
         | Some _ => InvalidNumber
         | None => EnterNumber
         end) None]).
Proof.
  assert (H1 : py_int (strip (py "3")) = Some 3%Z) by (vm_compute; reflexivity).
  assert (H2 : users asked_delete_index !! str_of_int 7 =
               Some {| expenses := [coffee; lunch]; daily_limit := fzero;
                       state := state_delete_expense |})
    by (vm_compute; reflexivity).
  assert (H3 : (Z.of_nat (length [coffee; lunch]) < 3)%Z) by (simpl; lia).
  split; [repeat split; assumption|].
  exact (process_delete_expense_rejects asked_delete_index
           {| chat := 7; text := py "3" |} _ H2
           (or_intror (ex_intro _ 3%Z (conj H1 (or_intror H3))))).
Defined.

(** C6, as the specification has it, fails: after the button to add an
    expense the message /start goes to [process_expense], which answers
    with the format error; no welcome is sent and the stored state stays
    add_expense. *)
Lemma start_while_handler_waits :
  let m := {| chat := 7; text := py "/start" |} in
  let r := process_new_message m a_day a_day asked_expense in
  state <$> users asked_expense !! str_of_int 7 = Some state_add_expense /\
  next_step asked_expense !! 7%Z = Some [ProcessExpense] /\
  fst (fst r) = inr tt /\
  snd r = [Send (str_of_int 7) ExpenseFormatError None] /\
  state <$> users (snd (fst r)) !! str_of_int 7 = Some state_add_expense.
Proof. vm_compute. repeat split; reflexivity. Qed.

Lemma start_resets_when_none_waits_witness :
  let m := {| chat := 7; text := py "/start" |} in
  let w := step asked_expense {| chat := 7; text := py "abc" |} a_day a_day in
  (text m = py "/start" /\
   default [] (next_step w !! chat m) = [] /\
   state <$> users w !! str_of_int 7 = Some state_add_expense) /\
  exists u' : User,
    process_new_message m a_day a_day w =
      (inr tt,
       {| users := <[str_of_int (chat m) := u']> (users w);
          next_step := delete (chat m) (next_step w) |},
       [Save (<[str_of_int (chat m) := u']> (users w));
        Send (str_of_int (chat m)) Welcome (Some main_menu)]) /\
    state u' = None.
Proof.
  set (w := step asked_expense {| chat := 7; text := py "abc" |} a_day a_day).
  assert (H1 : default [] (next_step w !! 7%Z) = []) by (vm_compute; reflexivity).
  assert (H2 : state <$> users w !! str_of_int 7 = Some state_add_expense)
    by (vm_compute; reflexivity).
  split; [repeat split; assumption|].
  exact (start_resets_when_none_waits w {| chat := 7; text := py "/start" |}
           a_day a_day eq_refl H1).
Defined.

(** C7, as the specification has it, fails: after the button to add an
    expense and a text that is turned down, the stored state is still
    add_expense but no handler waits, and a well-formed expense sent next
    reaches no handler: nothing is recorded and nothing is answered. *)
Lemma no_retry_after_rejection :
  let w0 := asked_expense in
  let w1 := step w0 {| chat := 7; text := py "abc" |} a_day a_day in
  next_step w0 !! 7%Z = Some [ProcessExpense] /\
  parse_expense (py "abc") = None /\
  state <$> users w1 !! str_of_int 7 = Some state_add_expense /\
  next_step w1 !! 7%Z = None /\
  parse_expense (py "Coffee, 150") = Some (py "Coffee", amount coffee) /\
  process_new_message {| chat := 7; text := py "Coffee, 150" |} a_day a_day w1 =
    (inr tt, w1, []).
Proof. vm_compute. repeat split; reflexivity. Qed.

Lemma rejection_unregisters_witness :
  let m := {| chat := 7; text := py "abc" |} in
  let u := {| expenses := []; daily_limit := fzero; state := state_add_expense |} in
  let w' := {| users := users asked_expense;
               next_step := delete 7%Z (next_step asked_expense) |} in
  (next_step asked_expense !! chat m = Some [ProcessExpense] /\
   users asked_expense !! str_of_int (chat m) = Some u /\
   rejects ProcessExpense u (text m) = true) /\
  process_new_message m a_day a_day asked_expense =
    (inr tt, w', [Send (str_of_int 7) ExpenseFormatError None]) /\
  forall (m' : Message) (date' today' : str),
    chat m' = 7%Z ->
    process_new_message m' date' today' w' =
      match message_handler (text m') with
      | Some g => run_message_handler g m' w'
      | None => (inr tt, w', [])
      end.
Proof.
  assert (H1 : next_step asked_expense !! 7%Z = Some [ProcessExpense])
    by (vm_compute; reflexivity).
  assert (H2 : users asked_expense !! str_of_int 7 =
               Some {| expenses := []; daily_limit := fzero; state := state_add_expense |})
    by (vm_compute; reflexivity).
  assert (H3 : rejects ProcessExpense
                 {| expenses := []; daily_limit := fzero; state := state_add_expense |}
                 (py "abc") = true)
    by (vm_compute; reflexivity).
  split; [repeat split; assumption|].
  exact (rejection_unregisters asked_expense {| chat := 7; text := py "abc" |}
           a_day a_day ProcessExpense _ H1 H2 H3).
Defined.

(** C8, as the specification has it, fails: the answer -5 to the request
    for a limit is stored, and the limit of the user is then negative. *)
Lemma negative_limit_reachable :
  reachable limit_minus_five /\
  daily_limit <$> users limit_minus_five !! str_of_int 7 =
    Some (S754_finite true 5629499534213120 (-50)) /\
  nonnegative (S754_finite true 5629499534213120 (-50)) = false.
Proof.
  split; [apply reachable_after|]. vm_compute. split; reflexivity.
Qed.

Lemma daily_limit_is_entered_witness :
  let u := {| expenses := [];
              daily_limit := S754_finite true 5629499534213120 (-50);
              state := None |} in
  (reachable limit_minus_five /\
   users limit_minus_five !! str_of_int 7 = Some u) /\
  (daily_limit u = fzero \/ exists s : str, py_float s = Some (daily_limit u)).
Proof.
  assert (H1 : reachable limit_minus_five) by apply reachable_after.
  assert (H2 : users limit_minus_five !! str_of_int 7 =
               Some {| expenses := [];
                       daily_limit := S754_finite true 5629499534213120 (-50);
                       state := None |})
    by (vm_compute; reflexivity).
  split; [split; assumption|].
  exact (daily_limit_is_entered limit_minus_five (str_of_int 7) _ H1 H2).
Defined.

(** * Further properties *)

(** ** What a handler may change *)

Section Respects.
Context (R : World -> World -> Prop).
Hypothesis R_preorder :
  (forall w, R w w) /\ (forall w1 w2 w3, R w1 w2 -> R w2 w3 -> R w1 w3).

Lemma respects_ret {A} (a : A) : respects R (ret a).
Proof. intros w. apply R_preorder. Qed.

Lemma respects_raise {A} (e : Exn) : respects R (@raise A e).
Proof. intros w. apply R_preorder. Qed.

Lemma respects_bind {A B} (c : M A) (k : A -> M B) :
  respects R c -> (forall a, respects R (k a)) -> respects R (bind c k).
Proof.
  destruct R_preorder as [_ R_trans].
  intros Hc Hk w. unfold state_after, bind. specialize (Hc w).
  unfold state_after in Hc.
  destruct (c w) as [[[e|a] w1] o1]; simpl in *; [assumption|].
  specialize (Hk a w1). unfold state_after in Hk.
  destruct (k a w1) as [[r w2] o2]. simpl in *. eauto.
Qed.

Lemma respects_try (body handler : M unit) :
  respects R body -> respects R handler ->
  respects R (try_except_ValueError body handler).
Proof.
  destruct R_preorder as [_ R_trans].
  intros Hb Hh w. unfold state_after, try_except_ValueError.
  specialize (Hb w). unfold state_after in Hb.
  destruct (body w) as [[[[]|a] w1] o1]; simpl in *; try assumption.
  specialize (Hh w1). unfold state_after in Hh.
  destruct (handler w1) as [[r w2] o2]. simpl in *. eauto.
Qed.

Lemma respects_convert {A} (o : option A) : respects R (convert o).
Proof. destruct o; [apply respects_ret|apply respects_raise]. Qed.

Lemma respects_get_user (chat_id : str) : respects R (get_user chat_id).
Proof.
  intros w. unfold state_after, get_user. unfold_monad.
  destruct (users w !! chat_id); apply R_preorder.
Qed.

Lemma respects_perform (e : Effect) : respects R (perform e).
Proof. intros w. apply R_preorder. Qed.

Lemma respects_save_user_data : respects R save_user_data.
Proof. intros w. apply R_preorder. Qed.
End Respects.

Lemma touches_only_preorder (key : str) :
  (forall w, touches_only key w w) /\
  (forall w1 w2 w3,
     touches_only key w1 w2 -> touches_only key w2 w3 -> touches_only key w1 w3).
Proof.
  split.
  - intros w. repeat split; auto.
  - intros w1 w2 w3 (N1 & O1 & K1) (N2 & O2 & K2). repeat split.
    + congruence.
    + intros k Hk. rewrite O2, O1 by assumption. reflexivity.
    + auto.
Qed.

Lemma touches_only_insert (key : str) (u : User) (w : World) :
  touches_only key w {| users := <[key := u]> (users w); next_step := next_step w |}.
Proof.
  repeat split; simpl.
  - intros k Hk. apply lookup_insert_ne. congruence.
  - intros _. rewrite lookup_insert_eq. eauto.
Qed.

Lemma respects_set_user (key : str) (u : User) :
  respects (touches_only key) (set_user key u).
Proof. intros w. apply touches_only_insert. Qed.

Lemma respects_set_user_state (key : str) (st : option str) :
  respects (touches_only key) (set_user_state key st).
Proof.
  intros w. unfold state_after. rewrite set_user_state_run. simpl.
  apply touches_only_insert.
Qed.

Ltac respects_step lemma :=
  apply respects_bind; [apply touches_only_preorder | apply lemma | intros ?].

Lemma respects_check_daily_limit (key today : str) :
  respects (touches_only key) (check_daily_limit key today).
Proof.
  unfold check_daily_limit.
  apply respects_bind; [apply touches_only_preorder| |intros u].
  - apply respects_get_user, touches_only_preorder.
  - simpl. destruct (fgt (daily_limit u) fzero && fgt _ (daily_limit u)).
    + apply respects_perform, touches_only_preorder.
    + apply respects_ret, touches_only_preorder.
Qed.

Lemma respects_run_step_handler (h : StepHandler) (m : Message) (date today : str) :
  respects (touches_only (str_of_int (chat m))) (run_step_handler h m date today).
Proof.
  set (key := str_of_int (chat m)).
  assert (Hsend : forall t k, respects (touches_only key) (send_message key t k)).
  { intros t k. apply respects_perform, touches_only_preorder. }
  assert (Hget : respects (touches_only key) (get_user key)).
  { apply respects_get_user, touches_only_preorder. }
  assert (Hsave : respects (touches_only key) save_user_data).
  { apply respects_save_user_data, touches_only_preorder. }
  assert (Hconv : forall A (o : option A), respects (touches_only key) (convert o)).
  { intros A o. apply respects_convert, touches_only_preorder. }
  destruct h; simpl.
  - unfold process_expense. fold key.
    apply respects_try; [apply touches_only_preorder| |apply Hsend].
    respects_step Hconv. respects_step Hget.
    respects_step respects_set_user. respects_step Hsave.
    respects_step respects_check_daily_limit. respects_step Hsend.
    apply respects_set_user_state.
  - unfold process_daily_limit. fold key.
    apply respects_try; [apply touches_only_preorder| |apply Hsend].
    respects_step Hconv. respects_step Hget.
    respects_step respects_set_user. respects_step Hsave.
    respects_step Hget. respects_step Hsend.
    apply respects_set_user_state.
  - unfold process_delete_expense. fold key.
    apply respects_try; [apply touches_only_preorder| |apply Hsend].
    respects_step Hconv. simpl. respects_step Hget.
    destruct ((0 <=? a - 1)%Z && (a - 1 <? Z.of_nat (length (expenses a0)))%Z);
      [|apply Hsend].
    destruct (expenses a0 !! Z.to_nat (a - 1));
      [|apply respects_raise, touches_only_preorder].
    respects_step respects_set_user. respects_step Hsave.
    respects_step Hsend. apply respects_set_user_state.
Qed.

Lemma respects_run_step_handlers (hs : list StepHandler) (m : Message)
    (date today : str) :
  respects (touches_only (str_of_int (chat m))) (run_step_handlers hs m date today).
Proof.
  induction hs as [|h hs IH]; simpl.
  - apply respects_ret, touches_only_preorder.
  - apply respects_bind; [apply touches_only_preorder| |intros _; apply IH].
    apply respects_run_step_handler.
Qed.

(** The state after a message handler. *)
Lemma run_message_handler_state (h : MessageHandler) (m : Message) (w : World) :
  let key := str_of_int (chat m) in
  let u := state_set (state_set_by h) (users w !! key) in
  outcome (run_message_handler h m) w = inr tt /\
  users (state_after (run_message_handler h m) w) = <[key := u]> (users w) /\
  next_step (state_after (run_message_handler h m) w) =
    match h, expenses u with
    | AddExpense, _ =>
        <[chat m := default [] (next_step w !! chat m) ++ [ProcessExpense]]> (next_step w)
    | SetDailyLimit, _ =>
        <[chat m := default [] (next_step w !! chat m) ++ [ProcessDailyLimit]]> (next_step w)
    | DeleteExpense, _ :: _ =>
        <[chat m := default [] (next_step w !! chat m) ++ [ProcessDeleteExpense]]> (next_step w)
    | _, _ => next_step w
    end.
Proof.
  unfold outcome, state_after. destruct h; simpl.
  - rewrite send_welcome_run. simpl. auto.
  - rewrite add_expense_run. simpl. auto.
  - rewrite set_daily_limit_run. simpl. auto.
  - rewrite view_expenses_run. simpl.
    destruct (expenses (state_set None (users w !! str_of_int (chat m)))); auto.
  - rewrite delete_expense_run. simpl.
    destruct (expenses (state_set state_delete_expense (users w !! str_of_int (chat m))));
      simpl; auto.
Qed.

(** The state after a message, by what was waiting for it. *)
Lemma step_cases (w : World) (m : Message) (date today : str) :
  let w0 := {| users := users w; next_step := delete (chat m) (next_step w) |} in
  step w m date today =
    match default [] (next_step w !! chat m) with
    | [] =>
        match message_handler (text m) with
        | Some g => state_after (run_message_handler g m) w0
        | None => w0
        end
    | hs => state_after (run_step_handlers hs m date today) w0
    end.
Proof.
  unfold step, state_after, process_new_message, take_next_step_handlers, bind.
  cbv beta iota zeta. destruct (default [] (next_step w !! chat m)) as [|h hs].
  - destruct (message_handler (text m)) as [g|]; [|reflexivity].
    destruct (run_message_handler g m _) as [[r w'] o]. reflexivity.
  - generalize (run_step_handlers (h :: hs) m date today
                  {| users := users w; next_step := delete (chat m) (next_step w) |}).
    intros [[r w'] o]. reflexivity.
Qed.

(** X1 — Whatever the message and whatever waits for it, handling it
    changes no record but that of the sender, and removes no record. *)
Theorem message_touches_sender_only (w : World) (m : Message) (date today : str) :
  delete (str_of_int (chat m)) (users (step w m date today)) =
    delete (str_of_int (chat m)) (users w) /\
  dom (users w) ⊆ dom (users (step w m date today)).
Proof.
  set (key := str_of_int (chat m)).
  set (w0 := {| users := users w; next_step := delete (chat m) (next_step w) |}).
  assert (H : (forall k, k <> key -> users (step w m date today) !! k = users w !! k) /\
              (forall k, is_Some (users w !! k) -> is_Some (users (step w m date today) !! k))).
  { rewrite step_cases. fold w0.
    destruct (default [] (next_step w !! chat m)) as [|h hs].
    - destruct (message_handler (text m)) as [g|]; [|simpl; auto].
      destruct (run_message_handler_state g m w0) as (_ & -> & _). simpl. fold key.
      split.
      + intros k Hk. apply lookup_insert_ne. congruence.
      + intros k Hk. destruct (decide (key = k)) as [->|Hne].
        * rewrite lookup_insert_eq. eauto.
        * rewrite lookup_insert_ne by assumption. assumption.
    - destruct (respects_run_step_handlers (h :: hs) m date today w0) as (_ & Ho & Hk).
      fold key in Ho, Hk. split; [exact Ho|].
      intros k Hs. destruct (decide (k = key)) as [->|Hne]; [auto|].
      rewrite Ho by assumption. assumption. }
  destruct H as [Ho Hk]. split.
  - apply map_eq. intros k. destruct (decide (key = k)) as [<-|Hne].
    + rewrite !lookup_delete_eq. reflexivity.
    + rewrite !lookup_delete_ne by assumption. apply Ho. congruence.
  - intros k Hd. apply elem_of_dom. apply Hk. apply elem_of_dom. assumption.
Qed.

(** X2 — After a message, the step handlers waiting for other chats are
    as before, and for the chat of the message: none waits if one was
    waiting (it was called, and no step handler registers one); otherwise
    exactly the one that the button pressed registers, where the button to
    delete registers one only if the user has expenses. *)
Theorem waiting_after_message (w : World) (m : Message) (date today : str) :
  let w' := step w m date today in
  let es := match users w !! str_of_int (chat m) with
            | Some u => expenses u
            | None => []
            end in
  delete (chat m) (next_step w') = delete (chat m) (next_step w) /\
  next_step w' !! chat m =
    match default [] (next_step w !! chat m) with
    | _ :: _ => None
    | [] =>
        match message_handler (text m), es with
        | Some AddExpense, _ => Some [ProcessExpense]
        | Some SetDailyLimit, _ => Some [ProcessDailyLimit]
        | Some DeleteExpense, _ :: _ => Some [ProcessDeleteExpense]
        | _, _ => None
        end
    end.
Proof.
  simpl. rewrite step_cases.
  set (w0 := {| users := users w; next_step := delete (chat m) (next_step w) |}).
  destruct (default [] (next_step w !! chat m)) as [|h hs].
  - destruct (message_handler (text m)) as [g|].
    + destruct (run_message_handler_state g m w0) as (_ & _ & ->). simpl.
      assert (He : expenses (state_set (state_set_by g) (users w !! str_of_int (chat m))) =
                   match users w !! str_of_int (chat m) with
                   | Some u => expenses u
                   | None => []
                   end).
      { destruct (users w !! str_of_int (chat m)); reflexivity. }
      rewrite He. rewrite lookup_delete_eq. simpl.
      destruct g,
        (match users w !! str_of_int (chat m) with
         | Some u => expenses u | None => [] end); simpl;
        (split; [rewrite ?delete_insert_eq, ?delete_delete_eq; reflexivity|];
         rewrite ?lookup_insert_eq, ?lookup_delete_eq; reflexivity).
    + simpl. rewrite delete_delete_eq, lookup_delete_eq.
      destruct (match users w !! str_of_int (chat m) with
                | Some u => expenses u | None => [] end); auto.
  - destruct (respects_run_step_handlers (h :: hs) m date today w0) as (-> & _).
    simpl. rewrite delete_delete_eq, lookup_delete_eq. auto.
Qed.

(** ** The keys of the records *)

Lemma utf8_ascii (bs : list N) :
  Forall (fun b => b < 128) bs -> utf8 0 O bs = bs.
Proof.
  induction 1 as [|b bs Hb _ IH]; simpl; [reflexivity|].
  apply N.ltb_lt in Hb. rewrite Hb, IH. reflexivity.
Qed.

Lemma string_of_uint_ascii (d : Decimal.uint) :
  Forall (fun b => b < 128)
    (map N_of_ascii (list_ascii_of_string (NilEmpty.string_of_uint d))).
Proof.
  induction d; simpl; constructor; solve [reflexivity | assumption].
Qed.

Lemma string_of_int_ascii (d : Decimal.int) :
  Forall (fun b => b < 128)
    (map N_of_ascii (list_ascii_of_string (NilZero.string_of_int d))).
Proof.
  assert (H : forall u, Forall (fun b => b < 128)
            (map N_of_ascii (list_ascii_of_string (NilZero.string_of_uint u)))).
  { intros u. destruct u; try apply string_of_uint_ascii.
    simpl. constructor; [reflexivity|constructor]. }
  destruct d; simpl; [apply H|]. constructor; [reflexivity|apply H].
Qed.

Lemma map_N_of_ascii_inj (l1 l2 : list ascii) :
  map N_of_ascii l1 = map N_of_ascii l2 -> l1 = l2.
Proof.
  revert l2. induction l1 as [|a l1 IH]; intros [|b l2] H; simpl in H;
    try discriminate; [reflexivity|].
  inversion H as [[Ha Hl]]. f_equal; [|auto].
  rewrite <- (ascii_N_embedding a), <- (ascii_N_embedding b), Ha. reflexivity.
Qed.

Lemma to_int_proper (n : Z) :
  Z.to_int n <> Decimal.Pos Decimal.Nil /\ Z.to_int n <> Decimal.Neg Decimal.Nil.
Proof.
  destruct n; simpl; split; try discriminate;
    intros [= H]; exact (DecimalPos.Unsigned.to_uint_nonnil _ H).
Qed.

(** [str] is one to one on ints: two chats never share a record. *)
Lemma str_of_int_inj (a b : Z) : str_of_int a = str_of_int b -> a = b.
Proof.
  unfold str_of_int, py. intros H.
  rewrite !utf8_ascii in H by apply string_of_int_ascii.
  apply map_N_of_ascii_inj in H.
  apply (f_equal string_of_list_ascii) in H.
  rewrite !string_of_list_ascii_of_string in H.
  apply (f_equal NilZero.int_of_string) in H.
  destruct (to_int_proper a) as [A1 A2], (to_int_proper b) as [B1 B2].
  rewrite !NilZero.isi in H by assumption.
  inversion H as [E]. apply (f_equal Z.of_int) in E.
  rewrite !DecimalZ.of_to in E. exact E.
Qed.

(** ** The waiting handler and the stored state *)

Lemma state_set_state (st : option str) (o : option User) :
  state (state_set st o) = st.
Proof. destruct o; reflexivity. Qed.

Lemma step_handlers_consistent (w : World) (m : Message) (date today : str) :
  handlers_consistent w -> handlers_consistent (step w m date today).
Proof.
  intros Hw. rewrite step_cases.
  set (key := str_of_int (chat m)).
  set (w0 := {| users := users w; next_step := delete (chat m) (next_step w) |}).
  assert (Hother : forall w' : World,
            (forall k, k <> key -> users w' !! k = users w !! k) ->
            forall c hs, c <> chat m -> next_step w !! c = Some hs ->
            exists h u, hs = [h] /\ users w' !! str_of_int c = Some u /\
                        state u = awaited h).
  { intros w' Hk c hs Hc Hl. destruct (Hw c hs Hl) as (h & u & -> & Hu & Hs).
    exists h, u. split; [reflexivity|]. split; [|assumption].
    rewrite Hk; [assumption|]. intros E. apply Hc. apply str_of_int_inj, E. }
  destruct (default [] (next_step w !! chat m)) as [|h0 hs0].
  - destruct (message_handler (text m)) as [g|].
    + destruct (run_message_handler_state g m w0) as (_ & Hu & Hn).
      fold key in Hu. simpl in Hu, Hn.
      intros c hs Hl. rewrite Hn in Hl. rewrite Hu. clear Hu Hn.
      rewrite lookup_delete_eq in Hl. simpl in Hl. fold key in Hl.
      destruct (decide (c = chat m)) as [->|Hc].
      * assert (Hmine : forall h, state_set_by g = awaited h ->
                  exists h' u, [h] = [h'] /\
                    <[key := state_set (state_set_by g) (users w !! key)]> (users w)
                      !! str_of_int (chat m) = Some u /\ state u = awaited h').
        { intros h Hg. exists h, (state_set (state_set_by g) (users w !! key)).
          split; [reflexivity|]. split; [apply lookup_insert_eq|].
          rewrite state_set_state. assumption. }
        destruct g; simpl in Hl;
          try destruct (expenses (state_set _ (users w !! key)));
          first [ rewrite lookup_delete_eq in Hl; discriminate
                | rewrite lookup_insert_eq in Hl; injection Hl as <-;
                  apply Hmine; reflexivity ].
      * pose proof (Hother {| users := <[key := state_set (state_set_by g) (users w !! key)]> (users w);
                              next_step := next_step w |}) as Ho.
        simpl in Ho. apply Ho; [|assumption|].
        -- intros k Hk. simpl. apply lookup_insert_ne. congruence.
        -- destruct g; simpl in Hl;
             try destruct (expenses (state_set _ (users w !! key)));
             rewrite ?lookup_insert_ne, ?lookup_delete_ne in Hl by congruence;
             assumption.
    + intros c hs Hl. simpl in Hl.
      destruct (decide (c = chat m)) as [->|Hc].
      * rewrite lookup_delete_eq in Hl. discriminate.
      * rewrite lookup_delete_ne in Hl by congruence.
        apply (Hother w0); auto.
  - destruct (respects_run_step_handlers (h0 :: hs0) m date today w0) as (Hn & Ho & _).
    fold key in Ho. intros c hs Hl. rewrite Hn in Hl. simpl in Hl.
    destruct (decide (c = chat m)) as [->|Hc].
    + rewrite lookup_delete_eq in Hl. discriminate.
    + rewrite lookup_delete_ne in Hl by congruence.
      apply (Hother (state_after (run_step_handlers (h0 :: hs0) m date today) w0));
        auto.
Qed.

Lemma reachable_handlers_consistent (w : World) :
  reachable w -> handlers_consistent w.
Proof.
  induction 1 as [|w m date today _ IH].
  - intros c hs Hl. simpl in Hl. rewrite lookup_empty in Hl. discriminate.
  - apply step_handlers_consistent, IH.
Qed.

(** X3 — In every state the bot reaches, at most one step handler waits
    for a chat; the user of the chat then has a record, and the state
    stored in it is the one of the button that registered the handler:
    add_expense for [process_expense], set_daily_limit for
    [process_daily_limit], delete_expense for [process_delete_expense]. *)
Theorem waiting_handler_matches_state (w : World) (c : Z) (hs : list StepHandler) :
  reachable w ->
  next_step w !! c = Some hs ->
  exists (h : StepHandler) (u : User),
    hs = [h] /\ users w !! str_of_int c = Some u /\ state u = awaited h.
Proof.
  intros Hr. apply (reachable_handlers_consistent w Hr).
Qed.

Lemma step_handler_returns (h : StepHandler) (m : Message) (date today : str)
    (w : World) :
  is_Some (users w !! str_of_int (chat m)) ->
  outcome (run_step_handler h m date today) w = inr tt.
Proof.
  intros [u Hu]. unfold outcome. destruct h; simpl.
  - destruct (parse_expense (text m)) as [p|] eqn:Hp.
    + rewrite (process_expense_accept m date today w p u Hp Hu). reflexivity.
    + rewrite (process_expense_reject m date today w Hp). reflexivity.
  - destruct (py_float (strip (text m))) as [l|] eqn:Hp.
    + rewrite (process_daily_limit_accept m w l u Hp Hu). reflexivity.
    + rewrite (process_daily_limit_reject m w Hp). reflexivity.
  - destruct (py_int (strip (text m))) as [i|] eqn:Hp.
    + destruct (decide (1 <= i <= Z.of_nat (length (expenses u)))%Z) as [Hi|Hi].
      * destruct (lookup_lt_is_Some_2 (expenses u) (Z.to_nat (i - 1))) as [d Hd];
          [lia|].
        rewrite (process_delete_expense_accept m w i u d Hp Hu Hd) by lia.
        reflexivity.
      * rewrite (process_delete_expense_out_of_range m w i u Hp Hu) by lia.
        reflexivity.
    + rewrite (process_delete_expense_not_int m w Hp). reflexivity.
Qed.

(** X4 — In every state the bot reaches, handling a message raises no
    exception, whatever the message: a step handler is only called for a
    user with a record, so the look-up of the record never fails. *)
Theorem reachable_never_raises (w : World) (m : Message) (date today : str) :
  reachable w ->
  outcome (process_new_message m date today) w = inr tt.
Proof.
  intros Hr.
  pose proof (reachable_handlers_consistent w Hr (chat m)) as Hc.
  unfold outcome, process_new_message, take_next_step_handlers, bind.
  cbv beta iota zeta.
  set (w0 := {| users := users w; next_step := delete (chat m) (next_step w) |}).
  destruct (next_step w !! chat m) as [hs|] eqn:Hl; simpl.
  - destruct (Hc hs eq_refl) as (h & u & -> & Hu & _). simpl.
    pose proof (step_handler_returns h m date today w0 (ex_intro _ u Hu)) as Ho.
    unfold outcome, bind in *.
    destruct (run_step_handler h m date today w0) as [[r w1] o1].
    simpl in Ho. subst r. reflexivity.
  - destruct (message_handler (text m)) as [g|]; [|reflexivity].
    pose proof (run_message_handler_state g m w0) as (Ho & _).
    unfold outcome in Ho.
    destruct (run_message_handler g m w0) as [[r w1] o1]. simpl in *.
    assumption.
Qed.

(** ** The data file *)

Lemma last_save_app (o1 o2 : list Effect) :
  last_save (o1 ++ o2) =
    match last_save o2 with
    | Some file => Some file
    | None => last_save o1
    end.
Proof.
  induction o1 as [|e o1 IH]; simpl.
  - destruct (last_save o2); reflexivity.
  - rewrite IH. destruct (last_save o2); reflexivity.
Qed.

Lemma synced_ret {A} (a : A) : synced (ret a).
Proof. intros w. reflexivity. Qed.

Lemma synced_bind {A B} (c : M A) (k : A -> M B) :
  synced c -> (forall a, synced (k a)) -> synced (bind c k).
Proof.
  intros Hc Hk w. specialize (Hc w). unfold synced, effects, state_after, bind in *.
  destruct (c w) as [[[e|a] w1] o1]; simpl in *; [assumption|].
  specialize (Hk a w1). unfold effects, state_after in Hk.
  destruct (k a w1) as [[r w2] o2]. simpl in *.
  rewrite last_save_app. destruct (last_save o2); [assumption|].
  destruct (last_save o1); congruence.
Qed.

Lemma synced_run_message_handler (g : MessageHandler) (m : Message) :
  synced (run_message_handler g m).
Proof.
  intros w. unfold effects, state_after. destruct g; simpl.
  - rewrite send_welcome_run. reflexivity.
  - rewrite add_expense_run. reflexivity.
  - rewrite set_daily_limit_run. reflexivity.
  - rewrite view_expenses_run. reflexivity.
  - rewrite delete_expense_run. simpl.
    destruct (expenses (state_set state_delete_expense (users w !! str_of_int (chat m))));
      reflexivity.
Qed.

Lemma synced_run_step_handler (h : StepHandler) (m : Message) (date today : str) :
  synced (run_step_handler h m date today).
Proof.
  intros w. unfold effects, state_after. destruct h; simpl.
  - destruct (parse_expense (text m)) as [p|] eqn:Hp.
    + destruct (users w !! str_of_int (chat m)) as [u|] eqn:Hu.
      * rewrite (process_expense_accept m date today w p u Hp Hu). simpl.
        rewrite last_save_app. reflexivity.
      * rewrite (process_expense_no_user m date today w p Hp Hu). reflexivity.
    + rewrite (process_expense_reject m date today w Hp). reflexivity.
  - destruct (py_float (strip (text m))) as [l|] eqn:Hp.
    + destruct (users w !! str_of_int (chat m)) as [u|] eqn:Hu.
      * rewrite (process_daily_limit_accept m w l u Hp Hu). reflexivity.
      * rewrite (process_daily_limit_no_user m w l Hp Hu). reflexivity.
    + rewrite (process_daily_limit_reject m w Hp). reflexivity.
  - destruct (py_int (strip (text m))) as [i|] eqn:Hp.
    + destruct (users w !! str_of_int (chat m)) as [u|] eqn:Hu.
      * destruct (decide (1 <= i <= Z.of_nat (length (expenses u)))%Z) as [Hi|Hi].
        -- destruct (lookup_lt_is_Some_2 (expenses u) (Z.to_nat (i - 1))) as [d Hd];
             [lia|].
           rewrite (process_delete_expense_accept m w i u d Hp Hu Hd) by lia.
           reflexivity.
        -- rewrite (process_delete_expense_out_of_range m w i u Hp Hu) by lia.
           reflexivity.
      * rewrite (process_delete_expense_no_user m w i Hp Hu). reflexivity.
    + rewrite (process_delete_expense_not_int m w Hp). reflexivity.
Qed.

Lemma synced_run_step_handlers (hs : list StepHandler) (m : Message)
    (date today : str) :
  synced (run_step_handlers hs m date today).
Proof.
  induction hs as [|h hs IH]; simpl; [apply synced_ret|].
  apply synced_bind; [apply synced_run_step_handler|intros _; apply IH].
Qed.

(** X5 — After every message, the data file holds the map of users as it
    is in memory: the last map written while the message was handled is
    the map the handling leaves, and when nothing was written the map is
    as it was before the message. *)
Theorem file_follows_memory (w : World) (m : Message) (date today : str) :
  match last_save (effects (process_new_message m date today) w) with
  | Some file => file = users (step w m date today)
  | None => users (step w m date today) = users w
  end.
Proof.
  assert (H : synced (process_new_message m date today)).
  { unfold process_new_message. apply synced_bind.
    - intros w1. reflexivity.
    - intros [|h hs].
      + destruct (message_handler (text m));
          [apply synced_run_message_handler|apply synced_ret].
      + apply synced_run_step_handlers. }
  apply H.
Qed.

(** ** The recorded expenses *)

Lemma lstrip_by_start (f : N -> bool) (s : str) :
  lstrip_by f s = [] \/ exists c t, lstrip_by f s = c :: t /\ f c = false.
Proof.
  induction s as [|c s IH]; simpl; [auto|].
  destruct (f c) eqn:E; [assumption|]. right. eauto.
Qed.

Lemma lstrip_by_fixed (f : N -> bool) (c : N) (t : str) :
  f c = false -> lstrip_by f (c :: t) = c :: t.
Proof. intros H. simpl. rewrite H. reflexivity. Qed.

Lemma lstrip_by_last (f : N -> bool) (c : N) (s : str) :
  f c = false -> exists p, lstrip_by f (s ++ [c]) = p ++ [c].
Proof.
  intros H. induction s as [|d s IH]; simpl.
  - rewrite H. exists []. reflexivity.
  - destruct (f d); [assumption|]. exists (d :: s). reflexivity.
Qed.

Lemma lstrip_by_subset (f : N -> bool) (c : N) (s : str) :
  c ∈ lstrip_by f s -> c ∈ s.
Proof.
  induction s as [|d s IH]; simpl; [auto|].
  destruct (f d); intros H; [right; auto|assumption].
Qed.

Lemma strip_by_subset (f : N -> bool) (c : N) (s : str) :
  c ∈ strip_by f s -> c ∈ s.
Proof.
  unfold strip_by. rewrite list_elem_of_In, <- in_rev, <- list_elem_of_In.
  intros H. apply lstrip_by_subset in H.
  rewrite list_elem_of_In, <- in_rev, <- list_elem_of_In in H.
  apply lstrip_by_subset in H. assumption.
Qed.

Lemma lstrip_by_idempotent (f : N -> bool) (s : str) :
  lstrip_by f (lstrip_by f s) = lstrip_by f s.
Proof.
  destruct (lstrip_by_start f s) as [E|(c & t & E & Hc)]; rewrite E.
  - reflexivity.
  - apply lstrip_by_fixed, Hc.
Qed.

(** Stripping what is stripped changes nothing. *)
Lemma strip_by_idempotent (f : N -> bool) (s : str) :
  strip_by f (strip_by f s) = strip_by f s.
Proof.
  unfold strip_by.
  destruct (lstrip_by_start f s) as [E|(c & t & E & Hc)]; rewrite E;
    [reflexivity|].
  change (rev (c :: t)) with (rev t ++ [c]).
  destruct (lstrip_by_last f c (rev t) Hc) as [p Hp].
  rewrite Hp, rev_app_distr.
  change (rev [c] ++ rev p) with (c :: rev p).
  rewrite (lstrip_by_fixed f c (rev p) Hc).
  change (rev (c :: rev p)) with (rev (rev p) ++ [c]). rewrite rev_involutive.
  rewrite <- Hp, lstrip_by_idempotent, Hp, rev_app_distr. reflexivity.
Qed.

Lemma parse_expense_well_formed (text : str) (p : str * float) (date : str) :
  parse_expense text = Some p ->
  well_formed {| category := fst p; amount := snd p; date := date |}.
Proof.
  destruct p as [c a]. intros H.
  apply parse_expense_inv in H as (l & r & -> & Hl & Hr & -> & Ha).
  split; [|split]; simpl.
  - intros Hin. apply Hl. apply strip_by_subset with isspace. assumption.
  - apply strip_by_idempotent.
  - eauto.
Qed.

(** *** Properties of the records kept by every handler *)

Section Records.
Context (P : User -> Prop).
Hypothesis P_state :
  forall (g : option MessageHandler) (o : option User),
    (forall u, o = Some u -> P u) ->
    P (state_set (match g with Some g => state_set_by g | None => None end) o).
Hypothesis P_expense :
  forall (u : User) (text : str) (p : str * float) (date : str),
    P u -> parse_expense text = Some p ->
    P (expense_added {| category := fst p; amount := snd p; date := date |} u).
Hypothesis P_limit :
  forall (u : User) (s : str) (l : float),
    P u -> py_float s = Some l -> P (with_daily_limit l u).
Hypothesis P_delete :
  forall (u : User) (i : nat),
    P u -> P (with_expenses (delete i (expenses u)) u).

Lemma all_records_insert (w : World) (key : str) (u : User) :
  all_records P w -> P u ->
  all_records P {| users := <[key := u]> (users w); next_step := next_step w |}.
Proof.
  intros Hw Hu k v Hk. simpl in Hk.
  destruct (decide (key = k)) as [->|Hne].
  - rewrite lookup_insert_eq in Hk. inversion Hk; subst. assumption.
  - rewrite lookup_insert_ne in Hk by assumption. eauto.
Qed.

Lemma all_records_preorder :
  (forall w, all_records P w -> all_records P w) /\
  (forall w1 w2 w3 : World,
     (all_records P w1 -> all_records P w2) ->
     (all_records P w2 -> all_records P w3) ->
     all_records P w1 -> all_records P w3).
Proof. split; auto. Qed.

Lemma records_run_step_handler (h : StepHandler) (m : Message) (date today : str) :
  respects (fun w w' => all_records P w -> all_records P w')
    (run_step_handler h m date today).
Proof.
  intros w Hw. unfold state_after.
  assert (Hidle : forall u, P u -> P (state_set None (Some u))).
  { intros u Hu. apply (P_state None (Some u)). intros v [= <-]. assumption. }
  destruct h; simpl.
  - destruct (parse_expense (text m)) as [p|] eqn:Hp.
    + destruct (users w !! str_of_int (chat m)) as [u|] eqn:Hu.
      * rewrite (process_expense_accept m date today w p u Hp Hu). simpl.
        apply all_records_insert; [assumption|].
        apply (Hidle (expense_added _ u)). eapply P_expense; eauto.
      * rewrite (process_expense_no_user m date today w p Hp Hu). assumption.
    + rewrite (process_expense_reject m date today w Hp). assumption.
  - destruct (py_float (strip (text m))) as [l|] eqn:Hp.
    + destruct (users w !! str_of_int (chat m)) as [u|] eqn:Hu.
      * rewrite (process_daily_limit_accept m w l u Hp Hu). simpl.
        apply all_records_insert; [assumption|].
        apply (Hidle (with_daily_limit l u)). eapply P_limit; eauto.
      * rewrite (process_daily_limit_no_user m w l Hp Hu). assumption.
    + rewrite (process_daily_limit_reject m w Hp). assumption.
  - destruct (py_int (strip (text m))) as [i|] eqn:Hp.
    + destruct (users w !! str_of_int (chat m)) as [u|] eqn:Hu.
      * destruct (decide (1 <= i <= Z.of_nat (length (expenses u)))%Z) as [Hi|Hi].
        -- destruct (lookup_lt_is_Some_2 (expenses u) (Z.to_nat (i - 1))) as [d Hd];
             [lia|].
           rewrite (process_delete_expense_accept m w i u d Hp Hu Hd) by lia.
           simpl. apply all_records_insert; [assumption|].
           apply (Hidle (with_expenses (delete (Z.to_nat (i - 1)) (expenses u)) u)).
           apply P_delete. eauto.
        -- rewrite (process_delete_expense_out_of_range m w i u Hp Hu) by lia.
           assumption.
      * rewrite (process_delete_expense_no_user m w i Hp Hu). assumption.
    + rewrite (process_delete_expense_not_int m w Hp). assumption.
Qed.

Lemma records_run_step_handlers (hs : list StepHandler) (m : Message)
    (date today : str) :
  respects (fun w w' => all_records P w -> all_records P w')
    (run_step_handlers hs m date today).
Proof.
  induction hs as [|h hs IH]; simpl.
  - apply respects_ret, all_records_preorder.
  - apply respects_bind; [apply all_records_preorder| |intros _; apply IH].
    apply records_run_step_handler.
Qed.

(** What the handlers keep holds of every record the bot reaches. *)
Lemma reachable_all_records (w : World) : reachable w -> all_records P w.
Proof.
  induction 1 as [|w m date today _ IH].
  - intros k u Hk. simpl in Hk. rewrite lookup_empty in Hk. discriminate.
  - rewrite step_cases.
    set (w0 := {| users := users w; next_step := delete (chat m) (next_step w) |}).
    assert (H0 : all_records P w0) by exact IH.
    destruct (default [] (next_step w !! chat m)) as [|h hs].
    + destruct (message_handler (text m)) as [g|]; [|assumption].
      destruct (run_message_handler_state g m w0) as (_ & Hu & _).
      intros k u Hk. rewrite Hu in Hk. simpl in Hk.
      destruct (decide (str_of_int (chat m) = k)) as [<-|Hne].
      * rewrite lookup_insert_eq in Hk. inversion Hk; subst.
        apply (P_state (Some g)). intros v Hv. apply (IH _ _ Hv).
      * rewrite lookup_insert_ne in Hk by assumption. eauto.
    + apply (records_run_step_handlers (h :: hs) m date today w0 H0).
Qed.
End Records.

(** X6 — In every state the bot reaches, every recorded expense has a
    category that is stripped (stripping it again changes nothing) and
    holds no comma, and an amount that [float] gives for some text. *)
Theorem recorded_expenses_well_formed (w : World) (k : str) (u : User) (e : Expense) :
  reachable w ->
  users w !! k = Some u ->
  e ∈ expenses u ->
  (comma ∉ category e) /\
  strip (category e) = category e /\
  exists s : str, py_float s = Some (amount e).
Proof.
  intros Hr Hk He.
  assert (H : Forall well_formed (expenses u)).
  { apply (reachable_all_records (fun u => Forall well_formed (expenses u)))
      with (w := w) (k := k); try assumption.
    - intros g o Ho. destruct o as [v|]; simpl; [apply Ho; reflexivity|constructor].
    - intros v text p date Hv Hp. simpl. apply Forall_app. split; [assumption|].
      constructor; [|constructor]. eapply parse_expense_well_formed, Hp.
    - intros v s l Hv _. assumption.
    - intros v i Hv. simpl. apply Forall_delete. assumption. }
  rewrite Forall_forall in H. apply (H e He).
Qed.

(** X7 — In every state the bot reaches, the stored state of every user
    is [None] or one of the three strings add_expense, set_daily_limit
    and delete_expense. *)
Theorem stored_state_is_known (w : World) (k : str) (u : User) :
  reachable w ->
  users w !! k = Some u ->
  state u = None \/ state u = state_add_expense \/
  state u = state_set_daily_limit \/ state u = state_delete_expense.
Proof.
  intros Hr Hk.
  apply (reachable_all_records (fun u => known_state (state u)))
    with (w := w) (k := k); try assumption.
  - intros g o _. rewrite state_set_state. unfold known_state.
    destruct g as [[]|]; simpl; auto.
  - intros v text p date Hv _. assumption.
  - intros v s l Hv _. assumption.
  - intros v i Hv. assumption.
Qed.

(** ** The handlers, case by case *)

(** X8 — [get_user_state] after [set_user_state] gives the state just set
    for the same user, and for any other user what it gave before
    ([None] for a user without a record); it changes nothing itself. *)
Theorem get_user_state_after_set (w : World) (k k' : str) (st : option str) :
  let w' := state_after (set_user_state k' st) w in
  get_user_state k w' =
    (inr (if decide (k = k') then st
          else match users w !! k with
               | Some u => state u
               | None => None
               end),
     w', []).
Proof.
  unfold state_after. rewrite set_user_state_run. simpl.
  unfold get_user_state. unfold_monad. simpl.
  destruct (decide (k = k')) as [->|Hne].
  - rewrite lookup_insert_eq, state_set_state. reflexivity.
  - rewrite lookup_insert_ne by congruence. reflexivity.
Qed.

(** X9 — [process_daily_limit], in all its cases.  A text that [float]
    does not read gets the error reply and changes nothing, also for a
    user without a record.  A text that it reads raises [KeyError] for a
    user without a record, with nothing changed, written or sent; for a
    user with a record the limit becomes the float read, the expenses
    stay, the file is written, the reply names the new limit and brings
    the menu, then the state becomes [None] and the file is written
    again. *)
Theorem process_daily_limit_cases (w : World) (m : Message) :
  let key := str_of_int (chat m) in
  process_daily_limit m w =
    match py_float (strip (text m)), users w !! key with
    | None, _ => (inr tt, w, [Send key DailyLimitError None])
    | Some l, None => (inl KeyError, w, [])
    | Some l, Some u =>
        let u1 := {| expenses := expenses u; daily_limit := l; state := state u |} in
        let u2 := {| expenses := expenses u; daily_limit := l; state := None |} in
        (inr tt,
         {| users := <[key := u2]> (users w); next_step := next_step w |},
         [Save (<[key := u1]> (users w));
          Send key (DailyLimitSet l) (Some main_menu);
          Save (<[key := u2]> (users w))])
    end.
Proof.
  simpl. destruct (py_float (strip (text m))) as [l|] eqn:Hp.
  - destruct (users w !! str_of_int (chat m)) as [u|] eqn:Hu.
    + rewrite (process_daily_limit_accept m w l u Hp Hu). reflexivity.
    + apply (process_daily_limit_no_user m w l Hp Hu).
  - destruct (users w !! str_of_int (chat m));
      apply (process_daily_limit_reject m w Hp).
Qed.

(** X10 — A step handler called for a user without a record: when the
    conversion of the text fails it sends its error reply as for any
    user; when the conversion succeeds the look-up of the record raises
    [KeyError], which the handler does not catch, and nothing is changed,
    written or sent. *)
Theorem step_handler_without_record (h : StepHandler) (w : World) (m : Message)
    (date today : str) :
  users w !! str_of_int (chat m) = None ->
  run_step_handler h m date today w =
    if converts h (text m) then (inl KeyError, w, [])
    else (inr tt, w, [Send (str_of_int (chat m)) (rejection h (text m)) None]).
Proof.
  intros Hu. destruct h; simpl.
  - destruct (parse_expense (text m)) as [p|] eqn:Hp.
    + apply (process_expense_no_user m date today w p Hp Hu).
    + apply (process_expense_reject m date today w Hp).
  - destruct (py_float (strip (text m))) as [l|] eqn:Hp.
    + apply (process_daily_limit_no_user m w l Hp Hu).
    + apply (process_daily_limit_reject m w Hp).
  - destruct (py_int (strip (text m))) as [i|] eqn:Hp.
    + apply (process_delete_expense_no_user m w i Hp Hu).
    + apply (process_delete_expense_not_int m w Hp).
Qed.

(** X11 — The handlers of /start and of the four buttons return normally
    and change nothing of the store but the state of the sender: the
    record of the sender keeps its expenses and its limit and gets the
    state of the handler, and a sender without a record gets one with no
    expenses and the limit zero. *)
Theorem message_handler_sets_state_only (g : MessageHandler) (w : World) (m : Message) :
  let key := str_of_int (chat m) in
  outcome (run_message_handler g m) w = inr tt /\
  users (state_after (run_message_handler g m) w) =
    <[key := match users w !! key with
             | Some u =>
                 {| expenses := expenses u; daily_limit := daily_limit u;
                    state := state_set_by g |}
             | None =>
                 {| expenses := []; daily_limit := fzero; state := state_set_by g |}
             end]> (users w).
Proof.
  destruct (run_message_handler_state g m w) as (Ho & Hu & _).
  split; [exact Ho|]. rewrite Hu.
  destruct (users w !! str_of_int (chat m)); reflexivity.
Qed.

(** X12 — The button to view the expenses: the reply lists the expenses
    of the sender as they are stored, in their order, or says that there
    are none, which is also the reply to a sender without a record; no
    keyboard is sent and the file is written once, before the reply. *)
Theorem view_expenses_reports (w : World) (m : Message) :
  let key := str_of_int (chat m) in
  effects (view_expenses m) w =
    [Save (users (state_after (view_expenses m) w));
     Send key
       (match users w !! key with
        | Some u =>
            match expenses u with
            | [] => NoExpensesYet
            | es => ExpenseReport es
            end
        | None => NoExpensesYet
        end) None].
Proof.
  simpl. unfold effects, state_after. rewrite view_expenses_run. simpl.
  destruct (users w !! str_of_int (chat m)) as [u|]; reflexivity.
Qed.

(** X13 — The button to delete an expense, for a sender with no expenses
    (or no record): the reply says that there is nothing to delete and no
    step handler is registered, but the stored state is delete_expense all
    the same. *)
Theorem delete_expense_nothing_to_delete (w : World) (m : Message) :
  match users w !! str_of_int (chat m) with
  | Some u => expenses u = []
  | None => True
  end ->
  exists u' : User,
    delete_expense m w =
      (inr tt,
       {| users := <[str_of_int (chat m) := u']> (users w);
          next_step := next_step w |},
       [Save (<[str_of_int (chat m) := u']> (users w));
        Send (str_of_int (chat m)) NothingToDelete None]) /\
    state u' = state_delete_expense.
Proof.
  intros H. rewrite delete_expense_run. simpl.
  exists (state_set state_delete_expense (users w !! str_of_int (chat m))).
  rewrite state_set_state. split; [|reflexivity].
  destruct (users w !! str_of_int (chat m)) as [u|]; simpl.
  - rewrite H. reflexivity.
  - reflexivity.
Qed.

Lemma py_sum_nan_from (xs : list float) :
  fold_left fadd xs S754_nan = S754_nan.
Proof. induction xs as [|x xs IH]; simpl; [reflexivity|exact IH]. Qed.

Lemma fadd_nan_r (x : float) : fadd x S754_nan = S754_nan.
Proof. destruct x; reflexivity. Qed.

Lemma py_sum_nan (xs : list float) : S754_nan ∈ xs -> py_sum xs = S754_nan.
Proof.
  unfold py_sum. generalize fzero.
  induction xs as [|x xs IH]; intros acc H; [inversion H|]. simpl.
  apply elem_of_cons in H as [<-|H].
  - rewrite fadd_nan_r. apply py_sum_nan_from.
  - apply IH, H.
Qed.

(** X14 — [check_daily_limit] sends nothing when the limit is not greater
    than 0 (zero, negative or nan), and nothing when one of the amounts
    of today is nan, whatever the limit and the other amounts: the sum is
    then nan, which is not greater than any limit. *)
Theorem check_daily_limit_silent (w : World) (chat_id today : str) (u : User) :
  users w !! chat_id = Some u ->
  fgt (daily_limit u) fzero = false \/
    S754_nan ∈ amounts_on today (expenses u) ->
  check_daily_limit chat_id today w = (inr tt, w, []).
Proof.
  intros Hu H. rewrite (check_daily_limit_run chat_id today w u Hu).
  unfold limit_warning. destruct H as [H|H].
  - rewrite H. reflexivity.
  - rewrite (py_sum_nan _ H).
    destruct (daily_limit u); simpl; rewrite ?andb_false_r; reflexivity.
Qed.

Lemma delete_last {A} (l : list A) (x : A) : delete (length l) (l ++ [x]) = l.
Proof.
  induction l as [|a l IH]; simpl; [reflexivity|]. rewrite IH. reflexivity.
Qed.

(** X15 — An expense just recorded is the last one: after
    [process_expense] has recorded an expense for a user with n expenses,
    [process_delete_expense] on a text that [int] reads as n + 1 replies
    with the category and the amount just recorded and leaves the user
    with the expenses and the limit from before the two messages. *)
Theorem record_then_delete_last (w : World) (m1 m2 : Message) (date today : str)
    (p : str * float) (u : User) :
  chat m2 = chat m1 ->
  users w !! str_of_int (chat m1) = Some u ->
  parse_expense (text m1) = Some p ->
  py_int (strip (text m2)) = Some (Z.of_nat (length (expenses u)) + 1)%Z ->
  let w1 := state_after (process_expense m1 date today) w in
  exists file : gmap str User,
    process_delete_expense m2 w1 =
      (inr tt,
       {| users :=
            <[str_of_int (chat m1) :=
                {| expenses := expenses u; daily_limit := daily_limit u;
                   state := None |}]> (users w);
          next_step := next_step w |},
       [Save file;
        Send (str_of_int (chat m1)) (ExpenseDeleted (fst p) (snd p)) (Some main_menu);
        Save (<[str_of_int (chat m1) :=
                  {| expenses := expenses u; daily_limit := daily_limit u;
                     state := None |}]> (users w))]).
Proof.
  intros Hc Hu Hp Hi. unfold state_after.
  rewrite (process_expense_accept m1 date today w p u Hp Hu). simpl.
  set (e := {| category := fst p; amount := snd p; date := date |}).
  set (u1 := {| expenses := expenses u ++ [e]; daily_limit := daily_limit u;
                state := None |}).
  set (w1 := {| users := <[str_of_int (chat m1) := u1]> (users w);
                next_step := next_step w |}).
  assert (Hu1 : users w1 !! str_of_int (chat m2) = Some u1).
  { rewrite Hc. apply lookup_insert_eq. }
  assert (Hn : Z.to_nat (Z.of_nat (length (expenses u)) + 1 - 1) = length (expenses u))
    by lia.
  assert (Hd : expenses u1 !! Z.to_nat (Z.of_nat (length (expenses u)) + 1 - 1) = Some e).
  { rewrite Hn. simpl. rewrite lookup_app_r by lia.
    rewrite Nat.sub_diag. reflexivity. }
  rewrite (process_delete_expense_accept m2 w1 _ u1 e Hi Hu1 Hd) by lia.
  rewrite Hc, Hn. simpl. rewrite delete_last, !insert_insert_eq.
  eexists. reflexivity.
Qed.

(** X16 — Deleting shifts the later expenses: after [process_delete_expense]
    has removed the expense at position i (index i - 1), the expenses at
    smaller indices are where they were, and every expense at a greater
    index has moved down by one. *)
Theorem deletion_shifts_later_expenses (w : World) (m : Message) (i : Z) (u : User) :
  py_int (strip (text m)) = Some i ->
  users w !! str_of_int (chat m) = Some u ->
  (1 <= i <= Z.of_nat (length (expenses u)))%Z ->
  exists u' : User,
    users (state_after (process_delete_expense m) w) !! str_of_int (chat m) = Some u' /\
    forall j : nat,
      expenses u' !! j =
        if decide (j < Z.to_nat i - 1)%nat then expenses u !! j
        else expenses u !! S j.
Proof.
  intros Hp Hu Hi.
  assert (Hn : Z.to_nat (i - 1) = (Z.to_nat i - 1)%nat) by lia.
  destruct (lookup_lt_is_Some_2 (expenses u) (Z.to_nat (i - 1))) as [d Hd]; [lia|].
  unfold state_after.
  rewrite (process_delete_expense_accept m w i u d Hp Hu Hd) by lia. simpl.
  rewrite lookup_insert_eq. eexists. split; [reflexivity|]. simpl.
  intros j. rewrite Hn. destruct (decide (j < Z.to_nat i - 1)%nat) as [Hj|Hj].
  - apply list_lookup_delete_lt. assumption.
  - apply list_lookup_delete_ge. lia.
Qed.

(** X17 — A text with more than one comma is never an expense for
    [process_expense], whatever stands between the commas: a category
    cannot hold a comma, and a decimal comma in the amount is refused. *)
Theorem process_expense_rejects_second_comma (w : World) (m : Message)
    (date today : str) (l r : str) :
  text m = l ++ comma :: r ->
  comma ∈ r ->
  process_expense m date today w =
    (inr tt, w, [Send (str_of_int (chat m)) ExpenseFormatError None]).
Proof.
  intros Ht Hr. apply process_expense_reject.
  destruct (parse_expense (text m)) as [[c a]|] eqn:E; [|reflexivity].
  apply parse_expense_inv in E as (l' & r' & Ht' & Hl' & Hr' & _).
  rewrite Ht in Ht'. apply one_separator in Ht' as [_ ->]; [|assumption..].
  contradiction.
Qed.

(** X18 — A text that is neither the start command nor the label of a
    button, sent while no step handler waits for the chat, is dropped:
    nothing changes, nothing is written and nothing is answered. *)
Theorem unsolicited_text_is_dropped (w : World) (m : Message) (date today : str) :
  next_step w !! chat m = None ->
  message_handler (text m) = None ->
  process_new_message m date today w = (inr tt, w, []).
Proof.
  intros Hn Hm. rewrite process_new_message_idle by (rewrite Hn; reflexivity).
  rewrite Hm. simpl. rewrite (delete_id _ _ Hn). destruct w. reflexivity.
Qed.

(** X19 — While a step handler waits for a chat, the start command and
    the four buttons do not work there: the text goes to the waiting
    handler, which turns it down with its own error reply; the store is
    unchanged and the handler is gone. *)
Theorem buttons_go_to_waiting_handler (w : World) (m : Message) (date today : str)
    (h : StepHandler) (u : User) :
  next_step w !! chat m = Some [h] ->
  users w !! str_of_int (chat m) = Some u ->
  text m ∈ [py "/start"; btn_add_expense; btn_set_daily_limit;
            btn_view_expenses; btn_delete_expense] ->
  process_new_message m date today w =
    (inr tt,
     {| users := users w; next_step := delete (chat m) (next_step w) |},
     [Send (str_of_int (chat m)) (rejection h (text m)) None]).
Proof.
  intros Hn Hu Ht.
  apply (process_new_message_waiting m date today w h Hn).
  apply step_handler_rejects with u; [assumption|].
  repeat (apply elem_of_cons in Ht as [->|Ht];
          [destruct h; vm_compute; reflexivity|]).
  inversion Ht.
Qed.

(** ** A button, then the answer *)

Lemma step_button (w : World) (c : Z) (label : str) (g : MessageHandler)
    (date today : str) :
  default [] (next_step w !! c) = [] ->
  message_handler label = Some g ->
  step w {| chat := c; text := label |} date today =
    state_after (run_message_handler g {| chat := c; text := label |})
      {| users := users w; next_step := delete c (next_step w) |}.
Proof.
  intros Hn Hg. rewrite step_cases. simpl. rewrite Hn, Hg. reflexivity.
Qed.

(** X20 — The button to add an expense and then a well-formed text, sent
    to a chat for which no step handler waits: the expense is appended to
    the expenses of the user (to none, for a user without a record), the
    limit is as before, the state is [None] at the end, and no step
    handler waits for the chat any more. *)
Theorem add_expense_then_text (w : World) (c : Z) (date1 today1 date today : str)
    (l r : str) (a : float) :
  default [] (next_step w !! c) = [] ->
  comma ∉ l ->
  py_float (strip r) = Some a ->
  let w1 := step w {| chat := c; text := btn_add_expense |} date1 today1 in
  let old := state_set None (users w !! str_of_int c) in
  exists effs : list Effect,
    process_new_message {| chat := c; text := l ++ comma :: r |} date today w1 =
      (inr tt,
       {| users :=
            <[str_of_int c :=
                {| expenses :=
                     expenses old ++
                     [{| category := strip l; amount := a; date := date |}];
                   daily_limit := daily_limit old;
                   state := None |}]> (users w);
          next_step := delete c (next_step w) |},
       effs).
Proof.
  intros Hn Hl Ha. simpl.
  rewrite (step_button w c btn_add_expense AddExpense date1 today1 Hn eq_refl).
  unfold state_after. simpl. rewrite add_expense_run. simpl.
  rewrite lookup_delete_eq. simpl.
  assert (E : exists u1, u1 = state_set state_add_expense (users w !! str_of_int c) /\
                expenses u1 = expenses (state_set None (users w !! str_of_int c)) /\
                daily_limit u1 = daily_limit (state_set None (users w !! str_of_int c))).
  { eexists. split; [reflexivity|].
    destruct (users w !! str_of_int c); split; reflexivity. }
  destruct E as (u1 & <- & E1 & E2).
  set (w1 := {| users := <[str_of_int c := u1]> (users w);
                next_step := <[c := [ProcessExpense]]> (delete c (next_step w)) |}).
  set (m := {| chat := c; text := l ++ comma :: r |}).
  assert (Hw : next_step w1 !! chat m = Some [ProcessExpense]) by apply lookup_insert_eq.
  pose proof (parse_expense_accepts l r a Hl Ha) as Hp.
  eexists. apply (process_new_message_waiting m date today w1 ProcessExpense Hw).
  simpl.
  rewrite (process_expense_accept m date today _ (strip l, a) u1 Hp)
    by apply lookup_insert_eq.
  simpl. rewrite insert_insert_eq, delete_insert_eq, delete_delete_eq, E1, E2.
  reflexivity.
Qed.

(** X21 — The button to set the limit and then a text that [float]
    reads, sent to a chat for which no step handler waits: the limit of
    the user is the float read, the expenses are as before (none, for a
    user without a record), the state is [None] at the end, and no step
    handler waits for the chat any more. *)
Theorem set_daily_limit_then_text (w : World) (c : Z) (date1 today1 date today : str)
    (t : str) (l : float) :
  default [] (next_step w !! c) = [] ->
  py_float (strip t) = Some l ->
  let w1 := step w {| chat := c; text := btn_set_daily_limit |} date1 today1 in
  let old := state_set None (users w !! str_of_int c) in
  exists file : gmap str User,
    process_new_message {| chat := c; text := t |} date today w1 =
      (inr tt,
       {| users :=
            <[str_of_int c :=
                {| expenses := expenses old; daily_limit := l; state := None |}]>
              (users w);
          next_step := delete c (next_step w) |},
       [Save file;
        Send (str_of_int c) (DailyLimitSet l) (Some main_menu);
        Save (<[str_of_int c :=
                  {| expenses := expenses old; daily_limit := l; state := None |}]>
                (users w))]).
Proof.
  intros Hn Hp. simpl.
  rewrite (step_button w c btn_set_daily_limit SetDailyLimit date1 today1 Hn eq_refl).
  unfold state_after. simpl. rewrite set_daily_limit_run. simpl.
  rewrite lookup_delete_eq. simpl.
  assert (E : exists u1, u1 = state_set state_set_daily_limit (users w !! str_of_int c) /\
                expenses u1 = expenses (state_set None (users w !! str_of_int c))).
  { eexists. split; [reflexivity|].
    destruct (users w !! str_of_int c); reflexivity. }
  destruct E as (u1 & <- & E1).
  set (w1 := {| users := <[str_of_int c := u1]> (users w);
                next_step := <[c := [ProcessDailyLimit]]> (delete c (next_step w)) |}).
  set (m := {| chat := c; text := t |}).
  assert (Hw : next_step w1 !! chat m = Some [ProcessDailyLimit])
    by apply lookup_insert_eq.
  eexists. apply (process_new_message_waiting m date today w1 ProcessDailyLimit Hw).
  simpl.
  rewrite (process_daily_limit_accept m _ l u1 Hp) by apply lookup_insert_eq.
  simpl. rewrite !insert_insert_eq, delete_insert_eq, delete_delete_eq, E1.
  reflexivity.
Qed.

Lemma amounts_on_other_day (today : str) (es : list Expense) (e : Expense) :
  date e <> today -> amounts_on today (es ++ [e]) = amounts_on today es.
Proof.
  intros H. unfold amounts_on. rewrite filter_app, filter_cons_False by assumption.
  rewrite filter_nil, app_nil_r. reflexivity.
Qed.

(** X22 — The clock is read once for the date of a new expense and once
    more for the limit check.  When the two days differ, the check does
    not count the expense just recorded: the warnings are those that the
    expenses from before give for the day of the check. *)
Theorem check_misses_expense_of_other_day (w : World) (m : Message)
    (date today : str) (p : str * float) (u : User) :
  parse_expense (text m) = Some p ->
  users w !! str_of_int (chat m) = Some u ->
  date <> today ->
  warnings (effects (process_expense m date today) w) =
    limit_warning (str_of_int (chat m)) today u.
Proof.
  intros Hp Hu Hd. unfold effects.
  rewrite (process_expense_accept m date today w p u Hp Hu). simpl.
  unfold warnings. rewrite List.filter_app. simpl. rewrite app_nil_r.
  fold (warnings (limit_warning (str_of_int (chat m)) today
    (expense_added {| category := fst p; amount := snd p; date := date |} u))).
  rewrite warnings_limit_warning. unfold limit_warning. simpl.
  rewrite amounts_on_other_day by assumption. reflexivity.
Qed.

(** ** The further properties on a conversation *)

Lemma waiting_handler_matches_state_witness :
  (reachable asked_expense /\
   next_step asked_expense !! 7%Z = Some [ProcessExpense]) /\
  exists (h : StepHandler) (u : User),
    [ProcessExpense] = [h] /\
    users asked_expense !! str_of_int 7 = Some u /\ state u = awaited h.
Proof.
  assert (H1 : reachable asked_expense) by apply reachable_after.
  assert (H2 : next_step asked_expense !! 7%Z = Some [ProcessExpense])
    by (vm_compute; reflexivity).
  split; [split; assumption|].
  exact (waiting_handler_matches_state asked_expense 7 [ProcessExpense] H1 H2).
Defined.

Lemma reachable_never_raises_witness :
  reachable asked_expense /\
  outcome (process_new_message {| chat := 7; text := py "Coffee, 150" |} a_day a_day)
    asked_expense = inr tt.
Proof.
  assert (H1 : reachable asked_expense) by apply reachable_after.
  split; [assumption|].
  exact (reachable_never_raises asked_expense
           {| chat := 7; text := py "Coffee, 150" |} a_day a_day H1).
Defined.

Lemma recorded_expenses_well_formed_witness :
  let u := {| expenses := [coffee; lunch]; daily_limit := fzero;
              state := state_delete_expense |} in
  (reachable asked_delete_index /\
   users asked_delete_index !! str_of_int 7 = Some u /\
   coffee ∈ expenses u) /\
  (comma ∉ category coffee) /\
  strip (category coffee) = category coffee /\
  exists s : str, py_float s = Some (amount coffee).
Proof.
  assert (H1 : reachable asked_delete_index) by apply reachable_after.
  assert (H2 : users asked_delete_index !! str_of_int 7 =
               Some {| expenses := [coffee; lunch]; daily_limit := fzero;
                       state := state_delete_expense |})
    by (vm_compute; reflexivity).
  assert (H3 : coffee ∈ [coffee; lunch]) by left.
  split; [repeat split; assumption|].
  exact (recorded_expenses_well_formed asked_delete_index (str_of_int 7) _ coffee
           H1 H2 H3).
Defined.

Lemma stored_state_is_known_witness :
  let u := {| expenses := [coffee; lunch]; daily_limit := fzero;
              state := state_delete_expense |} in
  (reachable asked_delete_index /\
   users asked_delete_index !! str_of_int 7 = Some u) /\
  (state u = None \/ state u = state_add_expense \/
   state u = state_set_daily_limit \/ state u = state_delete_expense).
Proof.
  assert (H1 : reachable asked_delete_index) by apply reachable_after.
  assert (H2 : users asked_delete_index !! str_of_int 7 =
               Some {| expenses := [coffee; lunch]; daily_limit := fzero;
                       state := state_delete_expense |})
    by (vm_compute; reflexivity).
  split; [split; assumption|].
  exact (stored_state_is_known asked_delete_index (str_of_int 7) _ H1 H2).
Defined.

Lemma step_handler_without_record_witness :
  let m := {| chat := 7; text := py "Coffee, 150" |} in
  users initial !! str_of_int (chat m) = None /\
  run_step_handler ProcessExpense m a_day a_day initial =
    if converts ProcessExpense (text m) then (inl KeyError, initial, [])
    else (inr tt, initial,
          [Send (str_of_int (chat m)) (rejection ProcessExpense (text m)) None]).
Proof.
  assert (H : users initial !! str_of_int 7 = None) by (vm_compute; reflexivity).
  split; [exact H|].
  exact (step_handler_without_record ProcessExpense initial
           {| chat := 7; text := py "Coffee, 150" |} a_day a_day H).
Defined.

Lemma delete_expense_nothing_to_delete_witness :
  let m := {| chat := 7; text := btn_delete_expense |} in
  match users asked_expense !! str_of_int (chat m) with
  | Some u => expenses u = []
  | None => True
  end /\
  exists u' : User,
    delete_expense m asked_expense =
      (inr tt,
       {| users := <[str_of_int (chat m) := u']> (users asked_expense);
          next_step := next_step asked_expense |},
       [Save (<[str_of_int (chat m) := u']> (users asked_expense));
        Send (str_of_int (chat m)) NothingToDelete None]) /\
    state u' = state_delete_expense.
Proof.
  assert (H : match users asked_expense !! str_of_int 7 with
              | Some u => expenses u = []
              | None => True
              end) by (vm_compute; reflexivity).
  split; [exact H|].
  exact (delete_expense_nothing_to_delete asked_expense
           {| chat := 7; text := btn_delete_expense |} H).
Defined.

Lemma check_daily_limit_silent_witness :
  let u := {| expenses := [{| category := py "x"; amount := S754_nan; date := a_day |}];
              daily_limit := S754_finite false 7036874417766400 (-46);
              state := None |} in
  (users spent_nan !! str_of_int 7 = Some u /\
   S754_nan ∈ amounts_on a_day (expenses u)) /\
  check_daily_limit (str_of_int 7) a_day spent_nan = (inr tt, spent_nan, []).
Proof.
  assert (H1 : users spent_nan !! str_of_int 7 =
               Some {| expenses := [{| category := py "x"; amount := S754_nan;
                                       date := a_day |}];
                       daily_limit := S754_finite false 7036874417766400 (-46);
                       state := None |})
    by (vm_compute; reflexivity).
  assert (H2 : S754_nan ∈ amounts_on a_day
                 [{| category := py "x"; amount := S754_nan; date := a_day |}])
    by (vm_compute; left).
  split; [split; assumption|].
  exact (check_daily_limit_silent spent_nan (str_of_int 7) a_day _ H1 (or_intror H2)).
Defined.

Lemma record_then_delete_last_witness :
  let m1 := {| chat := 7; text := py "Coffee, 150" |} in
  let m2 := {| chat := 7; text := py "1" |} in
  let u := {| expenses := []; daily_limit := fzero; state := state_add_expense |} in
  let w1 := state_after (process_expense m1 a_day a_day) asked_expense in
  (users asked_expense !! str_of_int (chat m1) = Some u /\
   parse_expense (text m1) = Some (py "Coffee", amount coffee) /\
   py_int (strip (text m2)) = Some (Z.of_nat (length (expenses u)) + 1)%Z) /\
  exists file : gmap str User,
    process_delete_expense m2 w1 =
      (inr tt,
       {| users :=
            <[str_of_int (chat m1) :=
                {| expenses := expenses u; daily_limit := daily_limit u;
                   state := None |}]> (users asked_expense);
          next_step := next_step asked_expense |},
       [Save file;
        Send (str_of_int (chat m1))
          (ExpenseDeleted (py "Coffee") (amount coffee)) (Some main_menu);
        Save (<[str_of_int (chat m1) :=
                  {| expenses := expenses u; daily_limit := daily_limit u;
                     state := None |}]> (users asked_expense))]).
Proof.
  assert (H1 : users asked_expense !! str_of_int 7 =
               Some {| expenses := []; daily_limit := fzero; state := state_add_expense |})
    by (vm_compute; reflexivity).
  assert (H2 : parse_expense (py "Coffee, 150") = Some (py "Coffee", amount coffee))
    by (vm_compute; reflexivity).
  assert (H3 : py_int (strip (py "1")) = Some (Z.of_nat (length (@nil Expense)) + 1)%Z)
    by (vm_compute; reflexivity).
  split; [repeat split; assumption|].
  exact (record_then_delete_last asked_expense
           {| chat := 7; text := py "Coffee, 150" |} {| chat := 7; text := py "1" |}
           a_day a_day (py "Coffee", amount coffee) _ eq_refl H1 H2 H3).
Defined.

Lemma deletion_shifts_later_expenses_witness :
  let m := {| chat := 7; text := py "1" |} in
  let u := {| expenses := [coffee; lunch]; daily_limit := fzero;
              state := state_delete_expense |} in
  (py_int (strip (text m)) = Some 1%Z /\
   users asked_delete_index !! str_of_int (chat m) = Some u /\
   (1 <= 1 <= Z.of_nat (length (expenses u)))%Z) /\
  exists u' : User,
    users (state_after (process_delete_expense m) asked_delete_index)
      !! str_of_int (chat m) = Some u' /\
    forall j : nat,
      expenses u' !! j =
        if decide (j < Z.to_nat 1 - 1)%nat then expenses u !! j
        else expenses u !! S j.
Proof.
  assert (H1 : py_int (strip (py "1")) = Some 1%Z) by (vm_compute; reflexivity).
  assert (H2 : users asked_delete_index !! str_of_int 7 =
               Some {| expenses := [coffee; lunch]; daily_limit := fzero;
                       state := state_delete_expense |})
    by (vm_compute; reflexivity).
  assert (H3 : (1 <= 1 <= Z.of_nat (length [coffee; lunch]))%Z) by (simpl; lia).
  split; [repeat split; solve [assumption | apply H3]|].
  exact (deletion_shifts_later_expenses asked_delete_index
           {| chat := 7; text := py "1" |} 1 _ H1 H2 H3).
Defined.

Lemma process_expense_rejects_second_comma_witness :
  let m := {| chat := 7; text := py "Tea, 1,5" |} in
  (text m = py "Tea" ++ comma :: py " 1,5" /\ comma ∈ py " 1,5") /\
  process_expense m a_day a_day asked_expense =
    (inr tt, asked_expense, [Send (str_of_int (chat m)) ExpenseFormatError None]).
Proof.
  assert (H : comma ∈ py " 1,5")
    by (refine (bool_decide_unpack _ _); vm_compute; exact I).
  split; [split; [reflexivity|exact H]|].
  exact (process_expense_rejects_second_comma asked_expense
           {| chat := 7; text := py "Tea, 1,5" |} a_day a_day
           (py "Tea") (py " 1,5") eq_refl H).
Defined.

Lemma unsolicited_text_is_dropped_witness :
  let m := {| chat := 7; text := py "Coffee, 150" |} in
  (next_step initial !! chat m = None /\ message_handler (text m) = None) /\
  process_new_message m a_day a_day initial = (inr tt, initial, []).
Proof.
  assert (H1 : next_step initial !! 7%Z = None) by reflexivity.
  assert (H2 : message_handler (py "Coffee, 150") = None) by (vm_compute; reflexivity).
  split; [split; assumption|].
  exact (unsolicited_text_is_dropped initial
           {| chat := 7; text := py "Coffee, 150" |} a_day a_day H1 H2).
Defined.

Lemma buttons_go_to_waiting_handler_witness :
  let m := {| chat := 7; text := btn_view_expenses |} in
  let u := {| expenses := []; daily_limit := fzero; state := state_add_expense |} in
  (next_step asked_expense !! chat m = Some [ProcessExpense] /\
   users asked_expense !! str_of_int (chat m) = Some u /\
   text m ∈ [py "/start"; btn_add_expense; btn_set_daily_limit;
             btn_view_expenses; btn_delete_expense]) /\
  process_new_message m a_day a_day asked_expense =
    (inr tt,
     {| users := users asked_expense;
        next_step := delete (chat m) (next_step asked_expense) |},
     [Send (str_of_int (chat m)) (rejection ProcessExpense (text m)) None]).
Proof.
  assert (H1 : next_step asked_expense !! 7%Z = Some [ProcessExpense])
    by (vm_compute; reflexivity).
  assert (H2 : users asked_expense !! str_of_int 7 =
               Some {| expenses := []; daily_limit := fzero; state := state_add_expense |})
    by (vm_compute; reflexivity).
  assert (H3 : btn_view_expenses ∈ [py "/start"; btn_add_expense; btn_set_daily_limit;
                                    btn_view_expenses; btn_delete_expense])
    by (do 3 right; left).
  split; [repeat split; assumption|].
  exact (buttons_go_to_waiting_handler asked_expense
           {| chat := 7; text := btn_view_expenses |} a_day a_day ProcessExpense _
           H1 H2 H3).
Defined.

Lemma add_expense_then_text_witness :
  (default [] (next_step initial !! 7%Z) = [] /\
   (comma ∉ py "Coffee") /\
   py_float (strip (py " 150")) = Some (amount coffee)) /\
  exists effs : list Effect,
    process_new_message {| chat := 7; text := py "Coffee" ++ comma :: py " 150" |}
      a_day a_day (step initial {| chat := 7; text := btn_add_expense |} a_day a_day) =
      (inr tt,
       {| users := <[str_of_int 7 :=
                       {| expenses := [coffee]; daily_limit := fzero; state := None |}]>
                     (users initial);
          next_step := delete 7%Z (next_step initial) |},
       effs).
Proof.
  assert (H1 : default [] (next_step initial !! 7%Z) = []) by reflexivity.
  assert (H2 : comma ∉ py "Coffee")
    by (refine (bool_decide_unpack _ _); vm_compute; exact I).
  assert (H3 : py_float (strip (py " 150")) = Some (amount coffee))
    by (vm_compute; reflexivity).
  split; [repeat split; assumption|].
  exact (add_expense_then_text initial 7 a_day a_day a_day a_day
           (py "Coffee") (py " 150") (amount coffee) H1 H2 H3).
Defined.

Lemma set_daily_limit_then_text_witness :
  (default [] (next_step initial !! 7%Z) = [] /\
   py_float (strip (py "-5")) = Some (S754_finite true 5629499534213120 (-50))) /\
  exists file : gmap str User,
    process_new_message {| chat := 7; text := py "-5" |} a_day a_day
      (step initial {| chat := 7; text := btn_set_daily_limit |} a_day a_day) =
      (inr tt,
       {| users :=
            <[str_of_int 7 :=
                {| expenses := [];
                   daily_limit := S754_finite true 5629499534213120 (-50);
                   state := None |}]> (users initial);
          next_step := delete 7%Z (next_step initial) |},
       [Save file;
        Send (str_of_int 7)
          (DailyLimitSet (S754_finite true 5629499534213120 (-50))) (Some main_menu);
        Save (<[str_of_int 7 :=
                  {| expenses := [];
                     daily_limit := S754_finite true 5629499534213120 (-50);
                     state := None |}]> (users initial))]).
Proof.
  assert (H1 : default [] (next_step initial !! 7%Z) = []) by reflexivity.
  assert (H2 : py_float (strip (py "-5")) =
               Some (S754_finite true 5629499534213120 (-50)))
    by (vm_compute; reflexivity).
  split; [split; assumption|].
  exact (set_daily_limit_then_text initial 7 a_day a_day a_day a_day
           (py "-5") _ H1 H2).
Defined.

Lemma check_misses_expense_of_other_day_witness :
  let m := {| chat := 7; text := py "Coffee, 150" |} in
  let u := {| expenses := []; daily_limit := fzero; state := state_add_expense |} in
  (parse_expense (text m) = Some (py "Coffee", amount coffee) /\
   users asked_expense !! str_of_int (chat m) = Some u /\
   a_day <> py "2024-05-02") /\
  warnings (effects (process_expense m a_day (py "2024-05-02")) asked_expense) =
    limit_warning (str_of_int (chat m)) (py "2024-05-02") u.
Proof.
  assert (H1 : parse_expense (py "Coffee, 150") = Some (py "Coffee", amount coffee))
    by (vm_compute; reflexivity).
  assert (H2 : users asked_expense !! str_of_int 7 =
               Some {| expenses := []; daily_limit := fzero; state := state_add_expense |})
    by (vm_compute; reflexivity).
  assert (H3 : a_day <> py "2024-05-02") by (vm_compute; discriminate).
  split; [repeat split; assumption|].
  exact (check_misses_expense_of_other_day asked_expense
           {| chat := 7; text := py "Coffee, 150" |} a_day (py "2024-05-02")
           (py "Coffee", amount coffee) _ H1 H2 H3).
Defined.
